(** * CanvasComponents: the build script [scripts/build.js]

    A shallow embedding of the build pipeline (discover component files,
    parse, validate, minify, serialise, splice into the template script,
    minify, emit the bookmarklet artifacts) and the properties of it that the
    specification states.

    Strings are byte strings holding the UTF-8 encoding of the JavaScript
    string.  Every character the script inspects (in its regular expressions,
    in [encodeURI], in [JSON.stringify]) is decided on ASCII bytes, so the
    byte-level functions below agree with the code-unit-level ones of the
    language on well-formed text. *)

From Stdlib Require Import String Ascii List ZArith Lia Bool.
From stdpp Require Import gmap strings list fin_maps pretty.

Open Scope string_scope.

(** ** Characters and small string helpers *)

(** The double quote character and the one-character string holding it. *)
Definition dquote : ascii := "034"%char.
Definition dq : string := String dquote EmptyString.

Definition char_code (c : ascii) : nat := nat_of_ascii c.

Definition in_range (lo hi : nat) (c : ascii) : bool :=
  (lo <=? char_code c)%nat && (char_code c <=? hi)%nat.

Definition is_digit (c : ascii) : bool := in_range 48 57 c.
Definition is_upper (c : ascii) : bool := in_range 65 90 c.
Definition is_lower (c : ascii) : bool := in_range 97 122 c.

(** Membership of a character in a string seen as a set of characters. *)
Fixpoint char_in (c : ascii) (s : string) : bool :=
  match s with
  | EmptyString => false
  | String d s' => Ascii.eqb c d || char_in c s'
  end.

(** [strip_prefix p s] is the rest of [s] after [p], when [s] starts with [p]. *)
Fixpoint strip_prefix (p s : string) : option string :=
  match p with
  | EmptyString => Some s
  | String a p' =>
      match s with
      | EmptyString => None
      | String b s' => if Ascii.eqb a b then strip_prefix p' s' else None
      end
  end.

(** The first [n] characters of a string, and the string without them. *)
Fixpoint take_str (n : nat) (s : string) : string :=
  match n, s with
  | S n', String c s' => String c (take_str n' s')
  | _, _ => EmptyString
  end.

Fixpoint drop_str (n : nat) (s : string) : string :=
  match n, s with
  | S n', String _ s' => drop_str n' s'
  | _, _ => s
  end.

(** [Array.prototype.join]. *)
Definition join (sep : string) (xs : list string) : string := String.concat sep xs.

(** ** Thrown values and fallible computations *)

(** What a [throw] carries in this script: an [Error] instance (with its
    [name], such as [Error] or [TypeError], and its [message]), or a plain
    string (clean-css reports its errors as strings and the script throws
    them as they are). *)
Inductive thrown : Type :=
| ErrorObj (name message : string)
| StrVal (s : string).

(** [new Error(msg)] and the [TypeError] of a property access on [null] or
    [undefined], or of a call of something that is not a function. *)
Definition Error (msg : string) : thrown := ErrorObj "Error" msg.
Definition TypeError (msg : string) : thrown := ErrorObj "TypeError" msg.

(** String conversion of a thrown value, as when it is appended to a string
    ([Error.prototype.toString] for error objects). *)
Definition toString (e : thrown) : string :=
  match e with
  | StrVal s => s
  | ErrorObj name message =>
      if String.eqb name "" then message
      else if String.eqb message "" then name
      else name ++ ": " ++ message
  end.

Inductive result (A : Type) : Type :=
| Ok (a : A)
| Err (e : thrown).
Arguments Ok {A} a.
Arguments Err {A} e.

Definition is_ok {A} (r : result A) : bool :=
  match r with Ok _ => true | Err _ => false end.

Definition is_err {A} (r : result A) : bool := negb (is_ok r).

#[global] Instance result_ret : MRet result := fun A a => Ok a.
#[global] Instance result_bind : MBind result := fun A B f r =>
  match r with
  | Ok a => f a
  | Err e => Err e
  end.

(** ** Regular expressions

    The fragment of the language's regular expressions that the script uses:
    literals, greedy repetition of a character class, an optional character,
    capturing groups (not nested) and sequencing, with the backtracking
    semantics of the language.  A character class is a test on the remaining
    input, which must accept its first character. *)

Definition charclass : Type := string -> bool.

Inductive regex : Type :=
| RLit (s : string)
| RStar (p : charclass)
| RPlus (p : charclass)
| ROpt (c : ascii)
| RGroup (r : regex)
| RSeq (r1 r2 : regex).

(** A match: the matched text and the texts of the capturing groups. *)
Record rmatch : Type := { matched : string; groups : list string }.

Section Matcher.
Context {R : Type}.

(** Greedy repetition: take as many characters as the class accepts, and
    give them back one by one while the continuation fails. *)
Fixpoint star (p : charclass) (s : string) (k : string -> option R) : option R :=
  match s with
  | EmptyString => k s
  | String _ s' =>
      if p s then
        match star p s' k with
        | Some r => Some r
        | None => k s
        end
      else k s
  end.

Fixpoint run (r : regex) (s : string) (caps : list string)
    (k : string -> list string -> option R) : option R :=
  match r with
  | RLit l =>
      match strip_prefix l s with
      | Some s' => k s' caps
      | None => None
      end
  | RStar p => star p s (fun s' => k s' caps)
  | RPlus p =>
      match s with
      | EmptyString => None
      | String _ s' => if p s then star p s' (fun s'' => k s'' caps) else None
      end
  | ROpt c =>
      match s with
      | String d s' =>
          if Ascii.eqb c d then
            match k s' caps with
            | Some r => Some r
            | None => k s caps
            end
          else k s caps
      | EmptyString => k s caps
      end
  | RGroup r1 =>
      run r1 s caps
        (fun s' caps' =>
           k s' (caps' ++ [take_str (String.length s - String.length s') s])%list)
  | RSeq r1 r2 => run r1 s caps (fun s' caps' => run r2 s' caps' k)
  end.
End Matcher.

(** A match of [r] that starts at the head of [s]. *)
Definition match_here (r : regex) (s : string) : option rmatch :=
  run r s []
    (fun s' caps =>
       Some {| matched := take_str (String.length s - String.length s') s;
               groups := caps |}).

(** The successive matches of a global regular expression, as
    [String.prototype.matchAll] yields them: the leftmost match from the
    current position, then on from its end ([skip] counts the characters of
    the last match still to be passed; after an empty match the search moves
    one character on). *)
Fixpoint matches_from (r : regex) (skip : nat) (s : string) : list rmatch :=
  match s with
  | EmptyString =>
      match skip with
      | O => match match_here r s with Some m => [m] | None => [] end
      | S _ => []
      end
  | String _ s' =>
      match skip with
      | S n => matches_from r n s'
      | O =>
          match match_here r s with
          | Some m => m :: matches_from r (String.length (matched m) - 1) s'
          | None => matches_from r 0 s'
          end
      end
  end.

Definition matchAll (r : regex) (s : string) : list rmatch := matches_from r 0 s.

(** [String.prototype.replaceAll] with a global regular expression and a
    replacer function: text between the matches is copied, each match is
    replaced by what the function returns for it. *)
Fixpoint replace_from (r : regex) (f : rmatch -> string) (skip : nat) (s : string) : string :=
  match s with
  | EmptyString =>
      match skip with
      | O => match match_here r s with Some m => f m | None => "" end
      | S _ => ""
      end
  | String c s' =>
      match skip with
      | S n => replace_from r f n s'
      | O =>
          match match_here r s with
          | Some m =>
              match String.length (matched m) with
              | O => f m ++ String c (replace_from r f 0 s')
              | S n => f m ++ replace_from r f n s'
              end
          | None => String c (replace_from r f 0 s')
          end
      end
  end.

Definition replaceAll (r : regex) (f : rmatch -> string) (s : string) : string :=
  replace_from r f 0 s.

(** ** The CSS property allow-list (lines 68-87 of build.js) *)

(** Character classes of the two regular expressions of the script. *)
Definition head_is (p : ascii -> bool) : charclass :=
  fun s => match s with String c _ => p c | EmptyString => false end.

(** [\w]: ASCII letters, digits and the underscore. *)
Definition is_word (c : ascii) : bool :=
  is_upper c || is_lower c || is_digit c || Ascii.eqb c "_".

(** [[\w-]] *)
Definition word_or_dash : charclass := head_is (fun c => is_word c || Ascii.eqb c "-").

(** [[^;\n]] *)
Definition not_semicolon_newline : charclass :=
  head_is (fun c => negb (Ascii.eqb c ";" || Ascii.eqb c "010")).

(** [const cssPropsRegex = /([\w-]+):[^;\n]+;?/g] *)
Definition cssPropsRegex : regex :=
  RSeq (RGroup (RPlus word_or_dash))
    (RSeq (RLit ":") (RSeq (RPlus not_semicolon_newline) (ROpt ";"))).

Definition allowedCssProps : list string :=
  ["align-content"; "align-items"; "align-self"; "background"; "border";
   "border-radius"; "clear"; "clip"; "color"; "column-gap"; "cursor";
   "direction"; "display"; "flex"; "flex-basis"; "flex-direction"; "flex-flow";
   "flex-grow"; "flex-shrink"; "flex-wrap"; "float"; "font"; "gap"; "grid";
   "height"; "justify-content"; "justify-items"; "justify-self"; "left";
   "line-height"; "list-style"; "margin"; "max-height"; "max-width";
   "min-height"; "min-width"; "order"; "overflow"; "overflow-x"; "overflow-y";
   "padding"; "position"; "place-content"; "place-items"; "place-self";
   "right"; "row-gap"; "text-align"; "table-layout"; "text-decoration";
   "text-indent"; "top"; "vertical-align"; "visibility"; "white-space";
   "width"; "z-index"; "zoom"; "grid-area"; "grid-auto-columns";
   "grid-auto-flow"; "grid-auto-rows"; "grid-column"; "grid-gap"; "grid-row";
   "grid-template"; "grid-template-areas"; "grid-template-columns";
   "grid-template-rows"; "grid-column-end"; "grid-column-gap";
   "grid-column-start"; "grid-row-end"; "grid-row-gap"; "grid-row-start";
   "background-attachment"; "background-color"; "background-image";
   "background-position"; "background-repeat"; "background-position-x";
   "background-position-y"; "border-bottom"; "border-collapse";
   "border-color"; "border-left"; "border-right"; "border-spacing";
   "border-style"; "border-top"; "border-width"; "border-bottom-color";
   "border-bottom-style"; "border-bottom-width"; "border-left-color";
   "border-left-style"; "border-left-width"; "border-right-color";
   "border-right-style"; "border-right-width"; "border-top-color";
   "border-top-style"; "border-top-width"; "font-family"; "font-size";
   "font-stretch"; "font-style"; "font-variant"; "font-width";
   "list-style-image"; "list-style-position"; "list-style-type";
   "margin-bottom"; "margin-left"; "margin-right"; "margin-top";
   "margin-offset"; "padding-bottom"; "padding-left"; "padding-right";
   "padding-top"].

(** [Array.prototype.includes] on a list of strings. *)
Definition includes (xs : list string) (x : string) : bool :=
  existsb (String.eqb x) xs.

Definition nl : string := String "010" EmptyString.

(** The message of the error thrown at lines 84-86. *)
Definition unsupportedPropMessage (filename propName : string) : string :=
  nl ++ nl ++ "Error in " ++ filename ++ ":" ++ nl ++ "CSS property '" ++ propName
  ++ "' is not supported by Canvas. It will be automatically stripped by their sanitizer."
  ++ nl.

(** The first capturing group of a match ([propName] of the loop). *)
Definition group1 (m : rmatch) : string := hd "" (groups m).

(** The loop of lines 82-87 over the matches, in order: the first property
    name that the list does not include is thrown. *)
Fixpoint checkProps (filename : string) (ms : list rmatch) : result unit :=
  match ms with
  | [] => Ok tt
  | m :: ms' =>
      if includes allowedCssProps (group1 m) then checkProps filename ms'
      else Err (Error (unsupportedPropMessage filename (group1 m)))
  end.

Definition checkCssProps (filename styles : string) : result unit :=
  checkProps filename (matchAll cssPropsRegex styles).

(** ** The class rewrite of the markup (lines 94-98) *)

(** [.]: any character but a line terminator (LF, CR and, in UTF-8, the three
    bytes of U+2028 and of U+2029). *)
Definition dot : charclass :=
  fun s =>
    match s with
    | EmptyString => false
    | String c rest =>
        negb (Ascii.eqb c "010" || Ascii.eqb c "013"
              || (Ascii.eqb c "226"
                  && match rest with
                     | String c1 (String c2 _) =>
                         Ascii.eqb c1 "128" && (Ascii.eqb c2 "168" || Ascii.eqb c2 "169")
                     | _ => false
                     end))
    end.

(** The regular expression of line 96: the literal [class=] and a double
    quote, a capturing group of any number of [.], the literal [transition],
    a second such group, a double quote; with the [g] flag. *)
Definition transitionRegex : regex :=
  RSeq (RLit ("class=" ++ dq))
    (RSeq (RGroup (RStar dot))
       (RSeq (RLit "transition") (RSeq (RGroup (RStar dot)) (RLit dq)))).

(** The replacer of line 97: [class=], a double quote, the first group,
    [thumbnail], the second group, a double quote (both groups take part in
    every match, so the [??] defaults are never used). *)
Definition thumbnailReplacer (m : rmatch) : string :=
  "class=" ++ dq ++ nth 0 (groups m) "" ++ "thumbnail" ++ nth 1 (groups m) "" ++ dq.

Definition transformHtml (originalHtml : string) : string :=
  replaceAll transitionRegex thumbnailReplacer originalHtml.

(** ** [String.prototype.replace] with a string pattern *)

(** [String.prototype.indexOf]: the position of the first occurrence. *)
Fixpoint indexOf (pat s : string) : option nat :=
  match strip_prefix pat s with
  | Some _ => Some 0
  | None =>
      match s with
      | EmptyString => None
      | String _ s' => option_map S (indexOf pat s')
      end
  end.

(** The expansion of a replacement string (GetSubstitution of the language
    standard) when the pattern is a string, so that there are no capturing
    groups: [$$] is a dollar sign, [$&] the matched text, [$`] the text before
    the match, [$'] the text after it; any other dollar sign stands for
    itself. *)
Fixpoint getSubstitution (matched_ before after template : string) : string :=
  match template with
  | EmptyString => ""
  | String c t1 =>
      if Ascii.eqb c "$" then
        match t1 with
        | EmptyString => String c ""
        | String d t2 =>
            if Ascii.eqb d "$" then "$" ++ getSubstitution matched_ before after t2
            else if Ascii.eqb d "&" then matched_ ++ getSubstitution matched_ before after t2
            else if Ascii.eqb d "`" then before ++ getSubstitution matched_ before after t2
            else if Ascii.eqb d "'" then after ++ getSubstitution matched_ before after t2
            else String c (getSubstitution matched_ before after t1)
        end
      else String c (getSubstitution matched_ before after t1)
  end.

(** [s.replace(pat, replacement)] for strings [pat] and [replacement]: the
    first occurrence only, with the replacement expanded. *)
Definition replace (s pat replacement : string) : string :=
  match indexOf pat s with
  | None => s
  | Some pos =>
      let before := take_str pos s in
      let after := drop_str (pos + String.length pat) s in
      before ++ getSubstitution pat before after replacement ++ after
  end.

(** ** [encodeURI] and the bookmarklet (lines 115-117) *)

(** The characters [encodeURI] leaves as they are: letters, digits, the
    reserved characters, the unreserved marks and the number sign. *)
Definition uriUnescaped (c : ascii) : bool :=
  is_upper c || is_lower c || is_digit c || char_in c ";/?:@&=+$,-_.!~*'()#".

Definition hexDigit (n : nat) : ascii :=
  match String.get n "0123456789ABCDEF" with
  | Some c => c
  | None => "0"%char
  end.

(** [%XX] for one byte. *)
Definition percentEncode (c : ascii) : string :=
  String "%" (String (hexDigit (char_code c / 16)) (String (hexDigit (char_code c mod 16)) "")).

(** Every other character is replaced by the escapes of the bytes of its
    UTF-8 encoding, that is, byte by byte on a UTF-8 string. *)
Fixpoint encodeURI (s : string) : string :=
  match s with
  | EmptyString => ""
  | String c s' =>
      (if uriUnescaped c then String c "" else percentEncode c) ++ encodeURI s'
  end.

Definition createBookmarklet (js : string) : string :=
  encodeURI ("javascript:!function(){" ++ js ++ "}()").

(** ** Values, objects and [JSON.stringify] *)

Set Warnings "-register-all".

(** The values a parsed YAML document is made of.  Numbers are the integers
    that the language prints digit by digit (below 10^21 and exact as a
    double); fractions and larger numbers are outside the model.  An object
    is the list of its own properties in property order. *)
Inductive json : Type :=
| JNull
| JBool (b : bool)
| JNum (n : Z)
| JStr (s : string)
| JArr (xs : list json)
| JObj (kvs : list (string * json)).

Definition obj : Type := list (string * json).

(** Property read: [o[k]] ([None] is [undefined]). *)
Fixpoint obj_get (k : string) (o : obj) : option json :=
  match o with
  | [] => None
  | (k', v) :: o' => if String.eqb k k' then Some v else obj_get k o'
  end.

(** Property write: an existing property keeps its place, a new one goes
    last. *)
Fixpoint obj_set (k : string) (v : json) (o : obj) : obj :=
  match o with
  | [] => [(k, v)]
  | (k', v') :: o' => if String.eqb k k' then (k, v) :: o' else (k', v') :: obj_set k v o'
  end.

(** The own enumerable properties that an object spread [{...v}] copies:
    those of an object, the indexed elements of an array, the indexed
    characters of a string (its bytes here, which are its characters when it
    is ASCII), none for [null], booleans and numbers. *)
Fixpoint indexed_from {A} (f : A -> json) (i : nat) (xs : list A) : obj :=
  match xs with
  | [] => []
  | x :: xs' => (pretty i, f x) :: indexed_from f (S i) xs'
  end.

Definition spread (v : json) : obj :=
  match v with
  | JObj kvs => kvs
  | JArr xs => indexed_from id 0 xs
  | JStr s => indexed_from (fun c => JStr (String c "")) 0 (list_ascii_of_string s)
  | JNull | JBool _ | JNum _ => []
  end.

(** The escape of one character inside a JSON string. *)
Definition jsonEscapeChar (c : ascii) : string :=
  if Ascii.eqb c dquote then String "\" dq
  else if Ascii.eqb c "\" then "\\"
  else if Ascii.eqb c "008" then "\b"
  else if Ascii.eqb c "012" then "\f"
  else if Ascii.eqb c "010" then "\n"
  else if Ascii.eqb c "013" then "\r"
  else if Ascii.eqb c "009" then "\t"
  else if (char_code c <? 32)%nat then
    "\u00" ++ String (hexDigit (char_code c / 16))
                (String (match char_code c mod 16 with
                         | 10 => "a" | 11 => "b" | 12 => "c"
                         | 13 => "d" | 14 => "e" | 15 => "f"
                         | n => hexDigit n
                         end)%char "")
  else String c "".

Fixpoint jsonEscape (s : string) : string :=
  match s with
  | EmptyString => ""
  | String c s' => jsonEscapeChar c ++ jsonEscape s'
  end.

Definition jsonQuote (s : string) : string := dq ++ jsonEscape s ++ dq.

(** [JSON.stringify] without indentation. *)
Fixpoint stringify (v : json) : string :=
  match v with
  | JNull => "null"
  | JBool true => "true"
  | JBool false => "false"
  | JNum n => pretty n
  | JStr s => jsonQuote s
  | JArr xs =>
      "[" ++ join "," ((fix elems (l : list json) : list string :=
                          match l with
                          | [] => []
                          | x :: l' => stringify x :: elems l'
                          end) xs) ++ "]"
  | JObj kvs =>
      "{" ++ join "," ((fix members (l : list (string * json)) : list string :=
                          match l with
                          | [] => []
                          | (k, x) :: l' => (jsonQuote k ++ ":" ++ stringify x) :: members l'
                          end) kvs) ++ "}"
  end.

(** ** The environment of the script

    The third-party modules the script imports, the one string method whose
    result depends on the Unicode tables, and the project directory.  The
    script is verified for every such environment. *)

(** An element of a parsed component file: its tag name and its [innerHTML].
    The parsed document, as far as the script looks at it, is the sequence of
    its elements in document order; [querySelector] with a tag name returns
    the first element of that name, or [null]. *)
Record Element : Type := { tagName : string; innerHTML : string }.

Definition Root : Type := list Element.

Definition querySelector (root : Root) (tag : string) : option Element :=
  List.find (fun e => String.eqb (tagName e) tag) root.

(** The result of clean-css ([styles], [errors]) and of uglify-js (an object
    with [code], or one with [error], an error object). *)
Record CssOutput : Type := { styles : string; errors : list string }.

Inductive MinifyOutput : Type :=
| MinifyCode (code : string)
| MinifyError (name message : string).

(** The file system: the files with their contents, and the directories. *)
Record FS : Type := { files : gmap string string; dirs : gset string }.

Record Env : Type := {
  (** glob: the files that match a pattern, or an error *)
  glob : string -> FS -> result (list string);
  (** node-html-parser *)
  HTML_parse : string -> Root;
  (** yaml; throws on a syntax error *)
  YAML_parse : string -> result json;
  (** clean-css *)
  CSS_minify : string -> CssOutput;
  (** uglify-js *)
  JS_minify : string -> MinifyOutput;
  (** html-minifier with collapseWhitespace and removeComments; throws on
      markup it cannot parse *)
  HTMLMinifier_minify : string -> result string;
  (** String.prototype.toLowerCase *)
  toLowerCase : string -> string;
  (** the directory two levels above the script file,
      [path.dirname(path.dirname(fileURLToPath(import.meta.url)))] *)
  projectDir : string;
}.

(** [fs.readFile]: the contents, or the error of a missing file. *)
Definition readFile (fs : FS) (path : string) : result string :=
  match files fs !! path with
  | Some contents => Ok contents
  | None => Err (Error ("ENOENT: no such file or directory, open '" ++ path ++ "'"))
  end.

(** [fs.writeFile] and [fs.mkdir] with [recursive], taken to succeed: the
    only I/O error of this model is the missing file of a read.  A write or
    a mkdir that the operating system refuses is outside it. *)
Definition writeFile (path data : string) (fs : FS) : FS :=
  {| files := <[path := data]> (files fs); dirs := dirs fs |}.

Definition mkdir (path : string) (fs : FS) : FS :=
  {| files := files fs; dirs := {[path]} ∪ dirs fs |}.

(** [path.join] of a normalised directory and a relative name. *)
Fixpoint ends_with_slash (s : string) : bool :=
  match s with
  | EmptyString => false
  | String c EmptyString => Ascii.eqb c "/"
  | String _ s' => ends_with_slash s'
  end.

Definition path_join (dir name : string) : string :=
  if ends_with_slash dir then dir ++ name else dir ++ "/" ++ name.

(** The errors of reading a property of [null] (a missing element) and of
    [undefined] (a missing property). *)
Definition nullAccess (prop : string) : thrown :=
  TypeError ("Cannot read properties of null (reading '" ++ prop ++ "')").

Definition undefinedAccess (prop : string) : thrown :=
  TypeError ("Cannot read properties of undefined (reading '" ++ prop ++ "')").

(** [Promise.all]: the values in the order of the promises when all are
    fulfilled; otherwise it rejects with the reason of the promise that is
    rejected first in time, which [sched] picks among the rejections. *)
Fixpoint fulfilled {A} (rs : list (result A)) : list A :=
  match rs with
  | [] => []
  | Ok a :: rs' => a :: fulfilled rs'
  | Err _ :: rs' => fulfilled rs'
  end.

Fixpoint rejections {A} (rs : list (result A)) : list thrown :=
  match rs with
  | [] => []
  | Ok _ :: rs' => rejections rs'
  | Err e :: rs' => e :: rejections rs'
  end.

Definition Promise_all {A} (sched : nat) (rs : list (result A)) : result (list A) :=
  match rejections rs with
  | [] => Ok (fulfilled rs)
  | e :: es => Err (nth (sched mod S (length es)) (e :: es) e)
  end.

(** [Array.prototype.map] with a callback that may throw: the first throw, in
    the order of the array, ends it. *)
Fixpoint map_throwing {A B} (f : A -> result B) (xs : list A) : result (list B) :=
  match xs with
  | [] => Ok []
  | x :: xs' => y ← f x; ys ← map_throwing f xs'; Ok (y :: ys)
  end.

(** ** [processComponent] (lines 75-110) and the build (lines 16-66) *)

Section Build.
Variable E : Env.

(** [querySelector(tag).innerHTML]: a [TypeError] when there is no such
    element. *)
Definition requiredInner (root : Root) (tag : string) : result string :=
  match querySelector root tag with
  | Some el => Ok (innerHTML el)
  | None => Err (nullAccess "innerHTML")
  end.

(** [querySelector(tag)?.innerHTML ?? ""] *)
Definition optionalInner (root : Root) (tag : string) : string :=
  match querySelector root tag with
  | Some el => innerHTML el
  | None => ""
  end.

(** Line 88. *)
Definition throwCssErrors (css : CssOutput) : result unit :=
  if (1 <? length (errors css))%nat then Err (StrVal (hd "" (errors css)))
  else Ok tt.

(** Lines 90-92. *)
Definition minifiedCode (js : MinifyOutput) : result string :=
  match js with
  | MinifyError name message => Err (ErrorObj name message)
  | MinifyCode code => Ok code
  end.

(** The object literal of lines 104-109: the spread of [config], then
    [style], [script] and [html]. *)
Definition componentRecord (config : json) (style script main : string) : obj :=
  obj_set "html" (JStr main)
    (obj_set "script" (JStr script)
       (obj_set "style" (JStr style) (spread config))).

(** The body of [processComponent] once the file is read and parsed. *)
Definition processRoot (filename : string) (root : Root) : result obj :=
  configText ← requiredInner root "config";
  config ← YAML_parse E configText;
  let css := CSS_minify E (optionalInner root "style") in
  _ ← checkCssProps filename (styles css);
  _ ← throwCssErrors css;
  let style := styles css in
  script ← minifiedCode (JS_minify E (optionalInner root "script"));
  originalHtml ← requiredInner root "main";
  let transformedHtml := transformHtml originalHtml in
  main ← HTMLMinifier_minify E transformedHtml;
  Ok (componentRecord config style script main).

Definition processComponent (fs : FS) (filename : string) : result obj :=
  file ← readFile fs filename;
  processRoot filename (HTML_parse E file).

(** [item.name.toLowerCase()]: a [TypeError] unless [name] is a string. *)
Definition lowerName (item : obj) : result string :=
  match obj_get "name" item with
  | Some (JStr name) => Ok (toLowerCase E name)
  | Some JNull => Err (nullAccess "toLowerCase")
  | None => Err (undefinedAccess "toLowerCase")
  | Some _ => Err (TypeError "item.name.toLowerCase is not a function")
  end.

(** The callback of line 30: the quoted key, a colon and a space, the
    JSON text of the item. *)
Definition serializeItem (item : obj) : result string :=
  key ← lowerName item;
  Ok (dq ++ key ++ dq ++ ": " ++ stringify (JObj item)).


(** Lines 29-31. *)
Definition serializedComponents (components : list obj) : result string :=
  entries ← map_throwing serializeItem components;
  Ok (join "," entries).

Definition placeholder : string := "/*${CANVAS_COMPONENTS}*/".

(** Lines 35-38. *)
Definition fullJsStr (canvasComponentsJs serialized : string) : string :=
  replace canvasComponentsJs placeholder serialized.

(** Lines 40-43. *)
Definition distDirectory : string := path_join (projectDir E) "dist/".

(** The paths of the three artifacts (lines 54, 56 and 60). *)
Definition bookmarkletPath : string := path_join distDirectory "bookmarklet".
Definition bookmarkletHtmlPath : string := path_join distDirectory "bookmarklet.html".
Definition minJsPath : string := path_join distDirectory "canvascomponents.min.js".

Definition grapes : string := "🍇".

(** Line 51. *)
Definition bookmarkletHtml (bookmarkletJs : string) : string :=
  "<a href=" ++ dq ++ bookmarkletJs ++ dq ++ " title=" ++ dq ++ grapes
  ++ " Canvas Components" ++ dq ++ ">" ++ grapes
  ++ " Canvas Components</a><p>Drag the link to the left into your bookmarks bar.</p>".

(** Lines 19-38: everything up to the assembled script.  Nothing is
    written before it is known. *)
Definition assemble (sched : nat) (fs : FS) : result string :=
  files ← glob E "components/*.html" fs;
  canvasComponentsJs ← readFile fs "canvascomponents.js";
  components ←
    match Promise_all sched (map (processComponent fs) files) with
    | Ok components => Ok components
    | Err e => Err (Error ("Error creating components: " ++ toString e))
    end;
  serialized ← serializedComponents components;
  Ok (fullJsStr canvasComponentsJs serialized).

(** Lines 53-63: the three writes. *)
Definition writeArtifacts (minifiedJsStr : string) (fs : FS) : FS :=
  let bookmarkletJs := createBookmarklet minifiedJsStr in
  writeFile minJsPath minifiedJsStr
    (writeFile bookmarkletHtmlPath (bookmarkletHtml bookmarkletJs)
       (writeFile bookmarkletPath bookmarkletJs fs)).

(** The callback of [glob]: the file system it leaves, and whether it
    returned or threw. *)
Definition build (sched : nat) (fs : FS) : FS * result unit :=
  match assemble sched fs with
  | Err e => (fs, Err e)
  | Ok full =>
      let fs1 := mkdir distDirectory fs in
      match minifiedCode (JS_minify E full) with
      | Err e => (fs1, Err e)
      | Ok minifiedJsStr => (writeArtifacts minifiedJsStr fs1, Ok tt)
      end
  end.
End Build.

(** ** Reading the anchor snippet *)

(** The text up to the next double quote. *)
Fixpoint until_dquote (s : string) : option string :=
  match s with
  | EmptyString => None
  | String c s' =>
      if Ascii.eqb c dquote then Some "" else option_map (String c) (until_dquote s')
  end.

(** The text between the quotes of the [href] attribute of a snippet that
    opens with an anchor whose first attribute it is: the attribute as it is
    written, before an HTML parser decodes its character references. *)
Definition hrefOf (html : string) : option string :=
  match strip_prefix ("<a href=" ++ dq) html with
  | Some rest => until_dquote rest
  | None => None
  end.

(** The character references of an attribute value, decoded as an HTML
    parser does.  Of the named references only amp, lt, gt and quot are
    decoded here, each with its semicolon; any other text stands for itself.
    [skip] counts the characters of a reference still to be passed. *)
Fixpoint decodeRefs (skip : nat) (s : string) : string :=
  match s with
  | EmptyString => ""
  | String c s' =>
      match skip with
      | S n => decodeRefs n s'
      | O =>
          if String.prefix "&lt;" s then String "<" (decodeRefs 3 s')
          else if String.prefix "&gt;" s then String ">" (decodeRefs 3 s')
          else if String.prefix "&amp;" s then String "&" (decodeRefs 4 s')
          else if String.prefix "&quot;" s then String dquote (decodeRefs 5 s')
          else String c (decodeRefs 0 s')
      end
  end.

(** The value of the [href] attribute as an HTML parser reads it. *)
Definition hrefValue (html : string) : option string :=
  option_map (decodeRefs 0) (hrefOf html).

(** ** Style sheets

    What the allow-list check is meant to look at: the declarations of the
    rules of a style sheet, and the minified text of the sheet. *)

(** A style sheet as a list of rules, each a selector and its declarations
    (property name and value), and its minified text: the rules one after
    the other, the declarations of a rule between braces and separated by
    semicolons. *)
Record CssRule : Type := { selector : string; declarations : list (string * string) }.

Definition renderDeclaration (d : string * string) : string := fst d ++ ":" ++ snd d.

Definition renderRule (r : CssRule) : string :=
  selector r ++ "{" ++ join ";" (map renderDeclaration (declarations r)) ++ "}".

Definition renderSheet (rules : list CssRule) : string :=
  String.concat "" (map renderRule rules).

Definition declaredProps (rules : list CssRule) : list string :=
  flat_map (fun r => map fst (declarations r)) rules.

(** Two rules, the second of which declares [transition]. *)
Definition twoRules : list CssRule :=
  [{| selector := ".a"; declarations := [("color", "red")] |};
   {| selector := ".b"; declarations := [("transition", "none")] |}].

(** One rule whose selector has a pseudo-class. *)
Definition hoverRule : list CssRule :=
  [{| selector := "a:hover"; declarations := [("color", "red")] |}].

(** ** A sample environment

    One environment and a few small projects on which the definitions can
    be run.  The sample modules behave as the real ones do on the sample
    texts: text that is already minimal is returned as it is. *)

Module Sample.

Definition asciiLower (c : ascii) : ascii :=
  if is_upper c then ascii_of_nat (char_code c + 32) else c.

Fixpoint lower (s : string) : string :=
  match s with
  | EmptyString => ""
  | String c s' => String (asciiLower c) (lower s')
  end.

(** The lines of a text. *)
Fixpoint lines_from (cur s : string) : list string :=
  match s with
  | EmptyString => [cur]
  | String c s' =>
      if Ascii.eqb c "010" then cur :: lines_from "" s'
      else lines_from (cur ++ String c "") s'
  end.

(** A line [key: value] is a property whose value is a string. *)
Fixpoint properties (ls : list string) : option obj :=
  match ls with
  | [] => Some []
  | l :: ls' =>
      match indexOf ": " l, properties ls' with
      | Some i, Some o => Some ((take_str i l, JStr (drop_str (i + 2) l)) :: o)
      | _, _ => None
      end
  end.

(** A document of [key: value] lines is an object with these properties;
    the empty document is [null]; other one-line text is a string scalar;
    anything else is refused. *)
Definition yaml (s : string) : result json :=
  if String.eqb s "" then Ok JNull
  else
    match properties (lines_from "" s) with
    | Some o => Ok (JObj o)
    | None =>
        match indexOf nl s with
        | None => Ok (JStr s)
        | Some _ => Err (ErrorObj "YAMLParseError" "unsupported document")
        end
    end.

(** An [@import] of a file that does not exist is reported as an error. *)
Definition css (s : string) : CssOutput :=
  match indexOf "@import" s with
  | Some _ =>
      {| styles := "";
         errors := ["Ignoring local @import of " ++ dq ++ "missing.css" ++ dq
                    ++ " as resource is missing."] |}
  | None => {| styles := s; errors := [] |}
  end.

Fixpoint ends_with_paren (s : string) : bool :=
  match s with
  | EmptyString => false
  | String c EmptyString => Ascii.eqb c "("
  | String _ s' => ends_with_paren s'
  end.

(** A script that ends in an open parenthesis does not parse. *)
Definition js (s : string) : MinifyOutput :=
  if ends_with_paren s then MinifyError "SyntaxError" "Unexpected token: eof (undefined)"
  else MinifyCode s.

Definition el (tag inner : string) : Element := {| tagName := tag; innerHTML := inner |}.

(** The sample component files, each with its elements. *)
Definition boxFile : string :=
  "<config>name: Box</config><main><p>box</p></main>".
Definition boxRoot : Root := [el "config" "name: Box"; el "main" "<p>box</p>"].

Definition cardFile : string :=
  "<config>name: Card</config><style>.card{color:red}</style>"
  ++ "<script>var n=1</script><main><p>card</p></main>".
Definition cardRoot : Root :=
  [el "config" "name: Card"; el "style" ".card{color:red}";
   el "script" "var n=1"; el "main" "<p>card</p>"].

(** Markup with a dollar sign. *)
Definition priceFile : string :=
  "<config>name: Price</config><main><p>$&nbsp;5</p></main>".
Definition priceRoot : Root := [el "config" "name: Price"; el "main" "<p>$&nbsp;5</p>"].

(** Metadata with a field named [html], and markup with the class
    [transition]. *)
Definition overridingFile : string :=
  "<config>name: Box" ++ nl ++ "html: <b>hi</b></config><main><p class=" ++ dq
  ++ "transition" ++ dq ++ ">x</p></main>".
Definition overridingRoot : Root :=
  [el "config" ("name: Box" ++ nl ++ "html: <b>hi</b>");
   el "main" ("<p class=" ++ dq ++ "transition" ++ dq ++ ">x</p>")].

(** A style sheet of two rules, the second with the property [transition]. *)
Definition twoRulesFile : string :=
  "<config>name: Two</config><style>" ++ renderSheet twoRules
  ++ "</style><main><p>x</p></main>".
Definition twoRulesRoot : Root :=
  [el "config" "name: Two"; el "style" (renderSheet twoRules); el "main" "<p>x</p>"].

(** A style sheet that imports a file that does not exist. *)
Definition importFile : string :=
  "<config>name: Import</config><style>@import 'missing.css';</style><main><p>x</p></main>".
Definition importRoot : Root :=
  [el "config" "name: Import"; el "style" "@import 'missing.css';"; el "main" "<p>x</p>"].

(** A file without a config element and one without a main element. *)
Definition noConfigFile : string := "<main><p>box</p></main>".
Definition noConfigRoot : Root := [el "main" "<p>box</p>"].

Definition noMainFile : string := "<config>name: Box</config>".
Definition noMainRoot : Root := [el "config" "name: Box"].

Definition parsed : list (string * Root) :=
  [(boxFile, boxRoot); (cardFile, cardRoot); (priceFile, priceRoot);
   (overridingFile, overridingRoot); (twoRulesFile, twoRulesRoot);
   (importFile, importRoot); (noConfigFile, noConfigRoot); (noMainFile, noMainRoot)].

Definition parse (file : string) : Root :=
  match List.find (fun entry => String.eqb (fst entry) file) parsed with
  | Some entry => snd entry
  | None => []
  end.

Definition componentFiles : list string :=
  ["components/box.html"; "components/card.html"; "components/price.html"].

Definition env : Env :=
  {| glob := fun _ fs =>
       Ok (List.filter (fun p => bool_decide (is_Some (files fs !! p))) componentFiles);
     HTML_parse := parse;
     YAML_parse := yaml;
     CSS_minify := css;
     JS_minify := js;
     HTMLMinifier_minify := fun s => Ok s;
     toLowerCase := lower;
     projectDir := "/repo" |}.

Definition components : gmap string string :=
  <["components/box.html" := boxFile]> (<["components/card.html" := cardFile]> ∅).

(** A project that builds, and one whose template script does not parse. *)
Definition project : FS :=
  {| files := <["canvascomponents.js" := "var components={/*${CANVAS_COMPONENTS}*/};"]>
                components;
     dirs := ∅ |}.

Definition brokenProject : FS :=
  {| files := <["canvascomponents.js" := "var components={/*${CANVAS_COMPONENTS}*/};("]>
                components;
     dirs := ∅ |}.

(** A project with one component, whose markup has a dollar sign. *)
Definition priceProject : FS :=
  {| files := <["canvascomponents.js" := "var components={/*${CANVAS_COMPONENTS}*/};"]>
                (<["components/price.html" := priceFile]> ∅);
     dirs := ∅ |}.

(** The other sample files, to process one by one. *)
Definition gallery : FS :=
  {| files := <["components/box.html" := boxFile]>
                (<["components/card.html" := cardFile]>
                   (<["components/overriding.html" := overridingFile]>
                      (<["components/two.html" := twoRulesFile]>
                         (<["components/import.html" := importFile]>
                            (<["components/noconfig.html" := noConfigFile]>
                               (<["components/nomain.html" := noMainFile]> ∅))))));
     dirs := ∅ |}.

End Sample.

(** ** Sample components *)


Definition cardRecord : obj :=
  [("name", JStr "Card"); ("style", JStr ".card{color:red}");
   ("script", JStr "var n=1"); ("html", JStr "<p>card</p>")].

Definition priceRecord : obj :=
  [("name", JStr "Price"); ("style", JStr ""); ("script", JStr "");
   ("html", JStr "<p>$&nbsp;5</p>")].

(** A project with one component whose markup has character references,
    and the environment that parses its file. *)
Definition noteFile : string :=
  "<config>name: Note</config><main><p>&lt;b&gt;</p></main>".

Definition noteRoot : Root :=
  [Sample.el "config" "name: Note"; Sample.el "main" "<p>&lt;b&gt;</p>"].

Definition noteEnv : Env :=
  {| glob := fun _ _ => Ok ["components/note.html"];
     HTML_parse := fun file => if String.eqb file noteFile then noteRoot else [];
     YAML_parse := YAML_parse Sample.env;
     CSS_minify := CSS_minify Sample.env;
     JS_minify := JS_minify Sample.env;
     HTMLMinifier_minify := HTMLMinifier_minify Sample.env;
     toLowerCase := toLowerCase Sample.env;
     projectDir := projectDir Sample.env |}.

Definition noteProject : FS :=
  {| files := <["canvascomponents.js" := "var components={/*${CANVAS_COMPONENTS}*/};"]>
                (<["components/note.html" := noteFile]> ∅);
     dirs := ∅ |}.

(** Two elements of class [transition] on one line, and an element of
    another class whose text is the word [transition]. *)
Definition twoTransitions : string :=
  "<div class=" ++ dq ++ "transition" ++ dq ++ "></div><div class=" ++ dq
  ++ "transition" ++ dq ++ "></div>".

Definition transitionInText : string :=
  "<p class=" ++ dq ++ "a" ++ dq ++ ">transition</p><p id=" ++ dq ++ "b" ++ dq ++ "></p>".

(** ** What a match consumes

    The text a regular expression can consume and the groups it then
    captures, whatever the character classes accept: the shape of a match,
    against which the matcher is checked below. *)
Inductive Consumes : regex -> string -> list string -> Prop :=
| consumes_lit (l : string) : Consumes (RLit l) l []
| consumes_star (p : charclass) (w : string) : Consumes (RStar p) w []
| consumes_plus (p : charclass) (c : ascii) (w : string) :
    Consumes (RPlus p) (String c w) []
| consumes_opt_none (c : ascii) : Consumes (ROpt c) "" []
| consumes_opt_some (c : ascii) : Consumes (ROpt c) (String c "") []
| consumes_group (r : regex) (w : string) (g : list string) :
    Consumes r w g -> Consumes (RGroup r) w (g ++ [w])%list
| consumes_seq (r1 r2 : regex) (w1 w2 : string) (g1 g2 : list string) :
    Consumes r1 w1 g1 -> Consumes r2 w2 g2 ->
    Consumes (RSeq r1 r2) (w1 ++ w2) (g1 ++ g2)%list.

(** [Renamed s t]: [t] is [s] with some occurrences of the word
    [transition] replaced by [thumbnail], and nothing else changed. *)
Inductive Renamed : string -> string -> Prop :=
| renamed_nil : Renamed "" ""
| renamed_keep (c : ascii) (s t : string) :
    Renamed s t -> Renamed (String c s) (String c t)
| renamed_word (s t : string) :
    Renamed s t -> Renamed ("transition" ++ s) ("thumbnail" ++ t).

(** Every character of a string passes a test. *)
Fixpoint all_chars (p : ascii -> bool) (s : string) : bool :=
  match s with
  | EmptyString => true
  | String c s' => p c && all_chars p s'
  end.

(** The characters a text made by [encodeURI] can hold. *)
Definition uriSafe (c : ascii) : bool := uriUnescaped c || Ascii.eqb c "%".

(** The value of a hexadecimal digit of an escape. *)
Definition hexValue (c : ascii) : option nat :=
  if is_digit c then Some (char_code c - 48)
  else if in_range 65 70 c then Some (char_code c - 55)
  else None.

(** The inverse of the escaping of [encodeURI]: each [%XX] is the byte
    [XX]. *)
Fixpoint percentDecode (s : string) : string :=
  match s with
  | EmptyString => ""
  | String c s1 =>
      if Ascii.eqb c "%" then
        match s1 with
        | String h1 (String h2 rest) =>
            match hexValue h1, hexValue h2 with
            | Some a, Some b => String (ascii_of_nat (16 * a + b)) (percentDecode rest)
            | _, _ => String c (percentDecode s1)
            end
        | _ => String c (percentDecode s1)
        end
      else String c (percentDecode s1)
  end.

(** The keys of an object, in property order. *)
Definition keys (o : obj) : list string := map fst o.

(** * Properties *)

(** ** Strings, paths and the result monad *)

Lemma append_cons (x : ascii) (a b : string) : String x a ++ b = String x (a ++ b).
Proof. reflexivity. Qed.

Lemma append_assoc (a b c : string) : (a ++ b) ++ c = a ++ (b ++ c).
Proof. induction a as [|x a IH]; [reflexivity | now rewrite !append_cons, IH]. Qed.

Lemma char_in_app (c : ascii) (a b : string) :
  char_in c (a ++ b) = char_in c a || char_in c b.
Proof.
  induction a as [|x a IH]; [reflexivity|].
  rewrite append_cons. simpl. rewrite IH. now rewrite orb_assoc.
Qed.

Lemma path_join_inj (dir a b : string) : path_join dir a = path_join dir b -> a = b.
Proof.
  unfold path_join. destruct (ends_with_slash dir); intros H.
  - now apply String.app_inj in H.
  - apply String.app_inj in H. now inversion H.
Qed.

Lemma bind_Ok {A B} (r : result A) (f : A -> result B) (b : B) :
  r ≫= f = Ok b -> exists a, r = Ok a /\ f a = Ok b.
Proof. destruct r as [a|e]; simpl; intros H; [eauto | discriminate]. Qed.

(** ** [encodeURI] *)

Lemma encodeURI_app (a b : string) : encodeURI (a ++ b) = encodeURI a ++ encodeURI b.
Proof.
  induction a as [|x a IH]; [reflexivity|].
  rewrite append_cons. simpl. rewrite IH. symmetry. apply append_assoc.
Qed.

Lemma encoded_char_no_dquote (c : ascii) :
  char_in dquote (if uriUnescaped c then String c "" else percentEncode c) = false.
Proof. destruct c as [[] [] [] [] [] [] [] []]; reflexivity. Qed.

(** No double quote survives [encodeURI]: it becomes [%22]. *)
Lemma encodeURI_no_dquote (s : string) : char_in dquote (encodeURI s) = false.
Proof.
  induction s as [|c s IH]; simpl; [reflexivity|].
  rewrite char_in_app, IH, encoded_char_no_dquote. reflexivity.
Qed.

(** The braces of the wrapper are escaped, the rest of it is not. *)
Lemma createBookmarklet_escaped (js : string) :
  createBookmarklet js = "javascript:!function()%7B" ++ encodeURI js ++ "%7D()".
Proof.
  unfold createBookmarklet.
  rewrite (encodeURI_app "javascript:!function(){"), encodeURI_app. reflexivity.
Qed.

(** ** The artifacts *)

Section Artifacts.
Variable E : Env.

Lemma artifact_paths_distinct :
  bookmarkletPath E <> bookmarkletHtmlPath E
  /\ bookmarkletPath E <> minJsPath E
  /\ bookmarkletHtmlPath E <> minJsPath E.
Proof.
  unfold bookmarkletPath, bookmarkletHtmlPath, minJsPath.
  repeat split; intros H; apply path_join_inj in H; discriminate.
Qed.

(** What the three writes leave in the file system. *)
Lemma writeArtifacts_lookup (code : string) (fs : FS) :
  files (writeArtifacts E code fs) !! bookmarkletPath E = Some (createBookmarklet code)
  /\ files (writeArtifacts E code fs) !! bookmarkletHtmlPath E
     = Some (bookmarkletHtml (createBookmarklet code))
  /\ files (writeArtifacts E code fs) !! minJsPath E = Some code
  /\ forall p, p <> bookmarkletPath E -> p <> bookmarkletHtmlPath E -> p <> minJsPath E ->
       files (writeArtifacts E code fs) !! p = files fs !! p.
Proof.
  destruct artifact_paths_distinct as (H12 & H13 & H23).
  unfold writeArtifacts, writeFile; simpl.
  repeat split.
  - rewrite lookup_insert_ne, lookup_insert_ne by congruence. apply lookup_insert_eq.
  - rewrite lookup_insert_ne by congruence. apply lookup_insert_eq.
  - apply lookup_insert_eq.
  - intros p Hp1 Hp2 Hp3. now rewrite !lookup_insert_ne by congruence.
Qed.

(** The three writes are started together; the order in which they land
    does not matter. *)
Lemma writeArtifacts_any_order (code : string) (fs : FS) :
  let uri := createBookmarklet code in
  writeArtifacts E code fs
  = writeFile (bookmarkletPath E) uri
      (writeFile (minJsPath E) code
         (writeFile (bookmarkletHtmlPath E) (bookmarkletHtml uri) fs)).
Proof.
  destruct artifact_paths_distinct as (H12 & H13 & H23).
  unfold writeArtifacts, writeFile; simpl. f_equal.
  apply map_eq; intros p.
  destruct (decide (p = bookmarkletPath E)) as [->|];
    [|destruct (decide (p = minJsPath E)) as [->|];
      [|destruct (decide (p = bookmarkletHtmlPath E)) as [->|]]];
    repeat (rewrite lookup_insert_eq || rewrite lookup_insert_ne by congruence);
    reflexivity.
Qed.

(** How a build that returns has gone. *)
Lemma build_Ok_inv (sched : nat) (fs fs' : FS) :
  build E sched fs = (fs', Ok tt) ->
  exists full code,
    assemble E sched fs = Ok full
    /\ JS_minify E full = MinifyCode code
    /\ fs' = writeArtifacts E code (mkdir (distDirectory E) fs).
Proof.
  unfold build. destruct (assemble E sched fs) as [full|e]; [|intros H; discriminate].
  destruct (JS_minify E full) as [code|n m] eqn:Hmin; simpl; intros H; [|discriminate].
  injection H as <-. exists full, code. auto.
Qed.
End Artifacts.

Lemma until_dquote_app (u rest : string) :
  char_in dquote u = false -> until_dquote (u ++ String dquote rest) = Some u.
Proof.
  induction u as [|c u IH]; intros H.
  - reflexivity.
  - rewrite append_cons. cbn [until_dquote]. cbn [char_in] in H.
    apply orb_false_elim in H as [Hc Hu].
    rewrite Ascii.eqb_sym, Hc, (IH Hu). reflexivity.
Qed.

Lemma hrefOf_bookmarkletHtml (uri : string) :
  char_in dquote uri = false -> hrefOf (bookmarkletHtml uri) = Some uri.
Proof.
  intros H. unfold hrefOf, bookmarkletHtml.
  change ("<a href=" ++ dq ++ uri ++ dq ++ ?t)
    with ("<a href=" ++ dq ++ (uri ++ String dquote t)).
  cbv [dq]. cbn. now apply until_dquote_app.
Qed.

(** ** The claims on the artifacts *)

(** The artifacts of a build that returns, as texts: three files in the dist
    directory and no other file are written; [bookmarklet] holds the
    bookmarklet URI, [bookmarklet.html] holds the anchor snippet with that
    URI between the quotes of its [href], and [canvascomponents.min.js]
    holds the minified assembled script. *)
Lemma build_emits_three_artifacts (E : Env) (sched : nat) (fs fs' : FS) :
  build E sched fs = (fs', Ok tt) ->
  exists full minifiedJsStr uri,
    assemble E sched fs = Ok full
    /\ JS_minify E full = MinifyCode minifiedJsStr
    /\ uri = createBookmarklet minifiedJsStr
    /\ files fs' !! bookmarkletPath E = Some uri
    /\ files fs' !! bookmarkletHtmlPath E = Some (bookmarkletHtml uri)
    /\ hrefOf (bookmarkletHtml uri) = Some uri
    /\ files fs' !! minJsPath E = Some minifiedJsStr
    /\ forall p, p <> bookmarkletPath E -> p <> bookmarkletHtmlPath E -> p <> minJsPath E ->
         files fs' !! p = files fs !! p.
Proof.
  intros H. apply build_Ok_inv in H as (full & code & Hasm & Hmin & ->).
  destruct (writeArtifacts_lookup E code (mkdir (distDirectory E) fs))
    as (H1 & H2 & H3 & H4).
  exists full, code, (createBookmarklet code).
  repeat split; auto.
  apply hrefOf_bookmarkletHtml, encodeURI_no_dquote.
Qed.

(** C3 fails on the code in its part on the [href].  Line 51 puts the URI
    between the quotes as it is, and [encodeURI] leaves the ampersand and
    the semicolon alone: a character reference in the script is one in the
    attribute.  On the component whose markup is a paragraph with the
    references of an opening [b] tag, the build writes the three artifacts,
    and the [href] that an HTML parser reads from the snippet has the tag
    itself where the URI of [bookmarklet] has the references. *)
Theorem anchor_href_is_not_the_uri :
  let fs' := fst (build noteEnv 0 noteProject) in
  let before :=
    encodeURI ("javascript:!function(){var components={" ++ dq ++ "note" ++ dq ++ ": {"
               ++ dq ++ "name" ++ dq ++ ":" ++ dq ++ "Note" ++ dq ++ "," ++ dq ++ "style"
               ++ dq ++ ":" ++ dq ++ dq ++ "," ++ dq ++ "script" ++ dq ++ ":" ++ dq ++ dq
               ++ "," ++ dq ++ "html" ++ dq ++ ":" ++ dq ++ "<p>") in
  let after := encodeURI ("</p>" ++ dq ++ "}};}()") in
  let uri := before ++ "&lt;b&gt;" ++ after in
  processComponent noteEnv noteProject "components/note.html"
  = Ok [("name", JStr "Note"); ("style", JStr ""); ("script", JStr "");
        ("html", JStr "<p>&lt;b&gt;</p>")]
  /\ build noteEnv 0 noteProject = (fs', Ok tt)
  /\ files fs' !! bookmarkletPath noteEnv = Some uri
  /\ files fs' !! bookmarkletHtmlPath noteEnv = Some (bookmarkletHtml uri)
  /\ files fs' !! minJsPath noteEnv
     = Some ("var components={" ++ dq ++ "note" ++ dq ++ ": "
             ++ stringify (JObj [("name", JStr "Note"); ("style", JStr "");
                                 ("script", JStr ""); ("html", JStr "<p>&lt;b&gt;</p>")])
             ++ "};")
  /\ hrefOf (bookmarkletHtml uri) = Some uri
  /\ hrefValue (bookmarkletHtml uri) = Some (before ++ "<b>" ++ after)
  /\ hrefValue (bookmarkletHtml uri) <> Some uri.
Proof.
  repeat split; try (vm_compute; reflexivity). vm_compute. discriminate.
Qed.

(** C4.  The bookmarklet URI that a build writes is [encodeURI] of the
    minified script between [javascript:!function(){] and [}()]. *)
Theorem bookmarklet_is_encoded_iife (E : Env) (sched : nat) (fs fs' : FS) :
  build E sched fs = (fs', Ok tt) ->
  exists full minifiedJsStr,
    assemble E sched fs = Ok full
    /\ JS_minify E full = MinifyCode minifiedJsStr
    /\ files fs' !! bookmarkletPath E
       = Some (encodeURI ("javascript:!function(){" ++ minifiedJsStr ++ "}()")).
Proof.
  intros H. apply build_Ok_inv in H as (full & code & Hasm & Hmin & ->).
  exists full, code. repeat split; auto.
  apply writeArtifacts_lookup.
Qed.

Lemma bookmarklet_is_encoded_iife_witness :
  let fs' := fst (build Sample.env 0 Sample.project) in
  build Sample.env 0 Sample.project = (fs', Ok tt)
  /\ exists full minifiedJsStr,
       assemble Sample.env 0 Sample.project = Ok full
       /\ JS_minify Sample.env full = MinifyCode minifiedJsStr
       /\ files fs' !! bookmarkletPath Sample.env
          = Some (encodeURI ("javascript:!function(){" ++ minifiedJsStr ++ "}()")).
Proof.
  assert (H : build Sample.env 0 Sample.project
              = (fst (build Sample.env 0 Sample.project), Ok tt))
    by (vm_compute; reflexivity).
  split; [exact H|].
  exact (bookmarklet_is_encoded_iife Sample.env 0 Sample.project _ H).
Defined.

(** C8.  When the minification of the assembled script fails, the build
    throws that error and no file is written: the files are those from
    before the build. *)
Theorem minify_failure_writes_no_artifact
    (E : Env) (sched : nat) (fs : FS) (full name message : string) :
  assemble E sched fs = Ok full ->
  JS_minify E full = MinifyError name message ->
  snd (build E sched fs) = Err (ErrorObj name message)
  /\ files (fst (build E sched fs)) = files fs.
Proof.
  intros Hasm Hmin. unfold build. rewrite Hasm, Hmin. simpl. split; reflexivity.
Qed.

Lemma minify_failure_writes_no_artifact_witness :
  let full := "var components={" ++ dq ++ "box" ++ dq ++ ": "
              ++ stringify (JObj [("name", JStr "Box"); ("style", JStr "");
                                  ("script", JStr ""); ("html", JStr "<p>box</p>")])
              ++ "," ++ dq ++ "card" ++ dq ++ ": "
              ++ stringify (JObj [("name", JStr "Card"); ("style", JStr ".card{color:red}");
                                  ("script", JStr "var n=1"); ("html", JStr "<p>card</p>")])
              ++ "};(" in
  assemble Sample.env 0 Sample.brokenProject = Ok full
  /\ JS_minify Sample.env full
     = MinifyError "SyntaxError" "Unexpected token: eof (undefined)"
  /\ snd (build Sample.env 0 Sample.brokenProject)
     = Err (ErrorObj "SyntaxError" "Unexpected token: eof (undefined)")
  /\ files (fst (build Sample.env 0 Sample.brokenProject)) = files Sample.brokenProject.
Proof.
  intros full.
  assert (Hasm : assemble Sample.env 0 Sample.brokenProject = Ok full)
    by (vm_compute; reflexivity).
  assert (Hmin : JS_minify Sample.env full
                 = MinifyError "SyntaxError" "Unexpected token: eof (undefined)")
    by (vm_compute; reflexivity).
  split; [exact Hasm|]. split; [exact Hmin|].
  exact (minify_failure_writes_no_artifact Sample.env 0 Sample.brokenProject full _ _
           Hasm Hmin).
Defined.

(** ** Objects *)

Lemma obj_get_set_eq (k : string) (v : json) (o : obj) :
  obj_get k (obj_set k v o) = Some v.
Proof.
  induction o as [|[k' v'] o IH]; simpl.
  - now rewrite String.eqb_refl.
  - destruct (String.eqb k k') eqn:Hk; simpl.
    + now rewrite String.eqb_refl.
    + now rewrite Hk.
Qed.

Lemma obj_get_set_ne (k k' : string) (v : json) (o : obj) :
  k <> k' -> obj_get k' (obj_set k v o) = obj_get k' o.
Proof.
  intros Hne. induction o as [|[k0 v0] o IH]; simpl.
  - apply String.eqb_neq in Hne. now rewrite String.eqb_sym, Hne.
  - destruct (String.eqb k k0) eqn:Hk; simpl.
    + apply String.eqb_eq in Hk. subst k0.
      apply String.eqb_neq in Hne. now rewrite String.eqb_sym, Hne.
    + now rewrite IH.
Qed.

(** The fields of the record that [processComponent] returns. *)
Lemma componentRecord_fields (config : json) (style script main : string) :
  let r := componentRecord config style script main in
  obj_get "style" r = Some (JStr style)
  /\ obj_get "script" r = Some (JStr script)
  /\ obj_get "html" r = Some (JStr main)
  /\ forall k, k <> "style" -> k <> "script" -> k <> "html" ->
       obj_get k r = obj_get k (spread config).
Proof.
  unfold componentRecord. repeat split.
  - rewrite !obj_get_set_ne by discriminate. apply obj_get_set_eq.
  - rewrite obj_get_set_ne by discriminate. apply obj_get_set_eq.
  - apply obj_get_set_eq.
  - intros k H1 H2 H3. now rewrite !obj_get_set_ne by congruence.
Qed.

(** ** [processComponent] *)

Section Components.
Variable E : Env.

Lemma processComponent_read (fs : FS) (filename file : string) :
  files fs !! filename = Some file ->
  processComponent E fs filename = processRoot E filename (HTML_parse E file).
Proof. intros H. unfold processComponent, readFile. now rewrite H. Qed.

(** How a call that returns has gone. *)
Lemma processRoot_Ok_inv (filename : string) (root : Root) (r : obj) :
  processRoot E filename root = Ok r ->
  exists configText config script originalHtml main,
    requiredInner root "config" = Ok configText
    /\ YAML_parse E configText = Ok config
    /\ checkCssProps filename (styles (CSS_minify E (optionalInner root "style"))) = Ok tt
    /\ throwCssErrors (CSS_minify E (optionalInner root "style")) = Ok tt
    /\ JS_minify E (optionalInner root "script") = MinifyCode script
    /\ requiredInner root "main" = Ok originalHtml
    /\ HTMLMinifier_minify E (transformHtml originalHtml) = Ok main
    /\ r = componentRecord config
             (styles (CSS_minify E (optionalInner root "style"))) script main.
Proof.
  unfold processRoot. intros H.
  apply bind_Ok in H as (configText & Hc & H).
  apply bind_Ok in H as (config & Hy & H).
  apply bind_Ok in H as ([] & Hprops & H).
  apply bind_Ok in H as ([] & Herrs & H).
  apply bind_Ok in H as (script & Hjs & H).
  apply bind_Ok in H as (originalHtml & Hm & H).
  apply bind_Ok in H as (main & Hmin & H).
  exists configText, config, script, originalHtml, main.
  repeat split; auto.
  - destruct (JS_minify E (optionalInner root "script")); simpl in Hjs; congruence.
  - congruence.
Qed.

Lemma querySelector_cons_ne (e : Element) (root : Root) (tag : string) :
  tagName e <> tag -> querySelector (e :: root) tag = querySelector root tag.
Proof.
  intros H. unfold querySelector. simpl.
  apply String.eqb_neq in H. now rewrite H.
Qed.

(** An element put first does not change what is read of the other tags,
    and an empty element reads as an absent optional one. *)
Lemma processRoot_empty_section (filename tag : string) (root : Root) :
  tag <> "config" -> tag <> "main" ->
  querySelector root tag = None ->
  processRoot E filename ({| tagName := tag; innerHTML := "" |} :: root)
  = processRoot E filename root.
Proof.
  intros Hc Hm Hnone.
  set (e := {| tagName := tag; innerHTML := "" |}).
  assert (Hreq : forall t, t <> tag -> requiredInner (e :: root) t = requiredInner root t).
  { intros t Ht. unfold requiredInner. rewrite querySelector_cons_ne; [reflexivity|].
    simpl. congruence. }
  assert (Hopt : forall t, optionalInner (e :: root) t = optionalInner root t).
  { intros t. unfold optionalInner. destruct (String.eqb_spec tag t) as [<-|Hne].
    - rewrite Hnone. unfold querySelector. simpl. now rewrite String.eqb_refl.
    - now rewrite querySelector_cons_ne. }
  unfold processRoot. rewrite !Hopt, !Hreq by congruence. reflexivity.
Qed.
End Components.

(** C9.  A component file without a style element, or without a script
    element, is processed exactly as the same document with that element
    present and empty, and the absence raises nothing: when the libraries
    accept the empty text, such a file with a config and a main element is
    processed to its record.  A component file without a config element, or
    without a main element, makes [processComponent] throw. *)
Theorem missing_sections (E : Env) (fs : FS) (filename file : string) :
  files fs !! filename = Some file ->
  let root := HTML_parse E file in
  (querySelector root "style" = None ->
     processComponent E fs filename
     = processRoot E filename ({| tagName := "style"; innerHTML := "" |} :: root))
  /\ (querySelector root "script" = None ->
        processComponent E fs filename
        = processRoot E filename ({| tagName := "script"; innerHTML := "" |} :: root))
  /\ (querySelector root "style" = None -> querySelector root "script" = None ->
      forall configText config originalHtml main,
        requiredInner root "config" = Ok configText ->
        YAML_parse E configText = Ok config ->
        CSS_minify E "" = {| styles := ""; errors := [] |} ->
        JS_minify E "" = MinifyCode "" ->
        requiredInner root "main" = Ok originalHtml ->
        HTMLMinifier_minify E (transformHtml originalHtml) = Ok main ->
        processComponent E fs filename = Ok (componentRecord config "" "" main))
  /\ (querySelector root "config" = None ->
        processComponent E fs filename = Err (nullAccess "innerHTML"))
  /\ (querySelector root "main" = None ->
        is_err (processComponent E fs filename) = true).
Proof.
  intros Hfile root. rewrite (processComponent_read E fs filename file Hfile).
  fold root. repeat split.
  - intros H. symmetry. now apply processRoot_empty_section.
  - intros H. symmetry. now apply processRoot_empty_section.
  - intros Hst Hsc configText config originalHtml main Hc Hy Hcss Hjs Hm Hmin.
    unfold processRoot, optionalInner.
    rewrite Hc, Hst, Hsc, Hcss, Hjs. simpl. rewrite Hy. simpl.
    rewrite Hm. simpl. rewrite Hmin. reflexivity.
  - intros H. unfold processRoot, requiredInner. now rewrite H.
  - intros H. destruct (processRoot E filename root) as [r|e] eqn:Hr; [|reflexivity].
    apply processRoot_Ok_inv in Hr as (? & ? & ? & originalHtml & ? & _ & _ & _ & _ & _ & Hm & _).
    unfold requiredInner in Hm. rewrite H in Hm. discriminate.
Qed.

Lemma missing_sections_witness :
  (files Sample.gallery !! "components/box.html" = Some Sample.boxFile
   /\ querySelector (HTML_parse Sample.env Sample.boxFile) "style" = None
   /\ querySelector (HTML_parse Sample.env Sample.boxFile) "script" = None
   /\ processComponent Sample.env Sample.gallery "components/box.html"
      = processRoot Sample.env "components/box.html"
          ({| tagName := "style"; innerHTML := "" |} :: Sample.boxRoot)
   /\ processComponent Sample.env Sample.gallery "components/box.html"
      = processRoot Sample.env "components/box.html"
          ({| tagName := "script"; innerHTML := "" |} :: Sample.boxRoot)
   /\ processComponent Sample.env Sample.gallery "components/box.html"
      = Ok (componentRecord (JObj [("name", JStr "Box")]) "" "" "<p>box</p>"))
  /\ (files Sample.gallery !! "components/noconfig.html" = Some Sample.noConfigFile
      /\ querySelector (HTML_parse Sample.env Sample.noConfigFile) "config" = None
      /\ processComponent Sample.env Sample.gallery "components/noconfig.html"
         = Err (nullAccess "innerHTML"))
  /\ (files Sample.gallery !! "components/nomain.html" = Some Sample.noMainFile
      /\ querySelector (HTML_parse Sample.env Sample.noMainFile) "main" = None
      /\ is_err (processComponent Sample.env Sample.gallery "components/nomain.html") = true).
Proof.
  assert (Fbox : files Sample.gallery !! "components/box.html" = Some Sample.boxFile)
    by (vm_compute; reflexivity).
  assert (Fnc : files Sample.gallery !! "components/noconfig.html" = Some Sample.noConfigFile)
    by (vm_compute; reflexivity).
  assert (Fnm : files Sample.gallery !! "components/nomain.html" = Some Sample.noMainFile)
    by (vm_compute; reflexivity).
  pose proof (missing_sections Sample.env Sample.gallery _ _ Fbox) as (H1 & H2 & H3 & _ & _).
  pose proof (missing_sections Sample.env Sample.gallery _ _ Fnc) as (_ & _ & _ & H4 & _).
  pose proof (missing_sections Sample.env Sample.gallery _ _ Fnm) as (_ & _ & _ & _ & H5).
  split; [|split].
  - split; [exact Fbox|]. split; [reflexivity|]. split; [reflexivity|].
    split; [exact (H1 eq_refl)|]. split; [exact (H2 eq_refl)|].
    exact (H3 eq_refl eq_refl "name: Box" (JObj [("name", JStr "Box")])
             "<p>box</p>" "<p>box</p>"
             eq_refl eq_refl eq_refl eq_refl eq_refl eq_refl).
  - split; [exact Fnc|]. split; [reflexivity | exact (H4 eq_refl)].
  - split; [exact Fnm|]. split; [reflexivity | exact (H5 eq_refl)].
Defined.

(** C7 (as amended).  The record that [processComponent] returns for a
    component file holds the minified CSS of the style element under
    [style], the minified script of the script element under [script], the
    minified markup of the main element, taken after the class rewrite of
    lines 94-98, under [html], and every field of the parsed metadata whose
    key is none of these three. *)
Theorem component_record_sections (E : Env) (fs : FS) (filename : string) (r : obj) :
  processComponent E fs filename = Ok r ->
  exists file configText config script originalHtml main,
    files fs !! filename = Some file
    /\ requiredInner (HTML_parse E file) "config" = Ok configText
    /\ YAML_parse E configText = Ok config
    /\ JS_minify E (optionalInner (HTML_parse E file) "script") = MinifyCode script
    /\ requiredInner (HTML_parse E file) "main" = Ok originalHtml
    /\ HTMLMinifier_minify E (transformHtml originalHtml) = Ok main
    /\ obj_get "style" r
       = Some (JStr (styles (CSS_minify E (optionalInner (HTML_parse E file) "style"))))
    /\ obj_get "script" r = Some (JStr script)
    /\ obj_get "html" r = Some (JStr main)
    /\ forall k, k <> "style" -> k <> "script" -> k <> "html" ->
         obj_get k r = obj_get k (spread config).
Proof.
  intros H. unfold processComponent, readFile in H.
  destruct (files fs !! filename) as [file|] eqn:Hfile; [|discriminate].
  simpl in H.
  apply processRoot_Ok_inv
    in H as (configText & config & script & originalHtml & main
             & Hc & Hy & _ & _ & Hjs & Hm & Hmin & ->).
  exists file, configText, config, script, originalHtml, main.
  destruct (componentRecord_fields config
              (styles (CSS_minify E (optionalInner (HTML_parse E file) "style"))) script main)
    as (F1 & F2 & F3 & F4).
  repeat split; auto.
Qed.

Lemma component_record_sections_witness :
  processComponent Sample.env Sample.gallery "components/card.html" = Ok cardRecord
  /\ exists file configText config script originalHtml main,
       files Sample.gallery !! "components/card.html" = Some file
       /\ requiredInner (HTML_parse Sample.env file) "config" = Ok configText
       /\ YAML_parse Sample.env configText = Ok config
       /\ JS_minify Sample.env (optionalInner (HTML_parse Sample.env file) "script")
          = MinifyCode script
       /\ requiredInner (HTML_parse Sample.env file) "main" = Ok originalHtml
       /\ HTMLMinifier_minify Sample.env (transformHtml originalHtml) = Ok main
       /\ obj_get "style" cardRecord
          = Some (JStr (styles (CSS_minify Sample.env
                                  (optionalInner (HTML_parse Sample.env file) "style"))))
       /\ obj_get "script" cardRecord = Some (JStr script)
       /\ obj_get "html" cardRecord = Some (JStr main)
       /\ forall k, k <> "style" -> k <> "script" -> k <> "html" ->
            obj_get k cardRecord = obj_get k (spread config).
Proof.
  assert (H : processComponent Sample.env Sample.gallery "components/card.html"
              = Ok cardRecord)
    by (vm_compute; reflexivity).
  split; [exact H|].
  exact (component_record_sections Sample.env Sample.gallery "components/card.html" _ H).
Defined.

(** C7 as stated fails on the file whose metadata has a field [html]: that
    field is not in the record, which holds the markup under that key; and
    that markup is not the minified markup of the main element but the
    minified rewritten markup. *)
Lemma component_record_sections_as_stated_fails :
  exists r,
    processComponent Sample.env Sample.gallery "components/overriding.html" = Ok r
    /\ files Sample.gallery !! "components/overriding.html" = Some Sample.overridingFile
    /\ HTML_parse Sample.env Sample.overridingFile = Sample.overridingRoot
    /\ YAML_parse Sample.env ("name: Box" ++ nl ++ "html: <b>hi</b>")
       = Ok (JObj [("name", JStr "Box"); ("html", JStr "<b>hi</b>")])
    /\ obj_get "html" (spread (JObj [("name", JStr "Box"); ("html", JStr "<b>hi</b>")]))
       = Some (JStr "<b>hi</b>")
    /\ obj_get "html" r = Some (JStr ("<p class=" ++ dq ++ "thumbnail" ++ dq ++ ">x</p>"))
    /\ obj_get "html" r <> Some (JStr "<b>hi</b>")
    /\ HTMLMinifier_minify Sample.env ("<p class=" ++ dq ++ "transition" ++ dq ++ ">x</p>")
       = Ok ("<p class=" ++ dq ++ "transition" ++ dq ++ ">x</p>")
    /\ obj_get "html" r <> Some (JStr ("<p class=" ++ dq ++ "transition" ++ dq ++ ">x</p>")).
Proof.
  eexists. split; [vm_compute; reflexivity|].
  repeat split; try (vm_compute; reflexivity); vm_compute; discriminate.
Qed.

(** ** The serialised components *)

Section Serialised.
Variable E : Env.



(** [Promise.all] of calls that all return gives their values in the order
    of the calls, whatever the order in which they finish. *)
Lemma Promise_all_fulfilled {A B} (f : A -> result B) (xs : list A) (ys : list B)
    (sched : nat) :
  Forall2 (fun x y => f x = Ok y) xs ys ->
  Promise_all sched (map f xs) = Ok ys.
Proof.
  intros H.
  assert (Hrs : rejections (map f xs) = [] /\ fulfilled (map f xs) = ys).
  { induction H as [|x y xs ys Hxy _ [IHr IHf]]; [split; reflexivity|].
    simpl. rewrite Hxy. split; [exact IHr | now rewrite IHf]. }
  destruct Hrs as [Hr Hf]. unfold Promise_all. now rewrite Hr, Hf.
Qed.

(** A component without a name makes the serialisation throw. *)
Lemma serializedComponents_unnamed (item : obj) (components : list obj) :
  obj_get "name" item = None ->
  serializedComponents E (item :: components) = Err (undefinedAccess "toLowerCase").
Proof.
  intros H. unfold serializedComponents. simpl.
  unfold serializeItem, lowerName. now rewrite H.
Qed.

(** The name of a component is the one of its metadata. *)
Lemma componentRecord_name (config : json) (style script main : string) :
  obj_get "name" (componentRecord config style script main)
  = obj_get "name" (spread config).
Proof. apply componentRecord_fields; discriminate. Qed.
End Serialised.




(** ** The allow-list check against the declarations of a style sheet *)

(** C1 fails on the code both ways.  The value of the last declaration of a
    rule has no semicolon after it, so the match of that declaration runs
    over the closing brace into the next rule and the first property of the
    next rule is never looked at: [transition] in the second rule is not
    reported, and the component file is processed to its record.  And a
    selector with a pseudo-class is taken for a declaration: [a:hover] is
    reported as a property [a] although the one declared property, [color],
    is allowed. *)
Theorem allow_list_check_misses_and_misfires :
  (renderSheet twoRules = ".a{color:red}.b{transition:none}"
   /\ In "transition" (declaredProps twoRules)
   /\ includes allowedCssProps "transition" = false
   /\ map group1 (matchAll cssPropsRegex (renderSheet twoRules)) = ["color"]
   /\ checkCssProps "components/two.html" (renderSheet twoRules) = Ok tt
   /\ processComponent Sample.env Sample.gallery "components/two.html"
      = Ok [("name", JStr "Two"); ("style", JStr ".a{color:red}.b{transition:none}");
            ("script", JStr ""); ("html", JStr "<p>x</p>")])
  /\ (renderSheet hoverRule = "a:hover{color:red}"
      /\ forallb (includes allowedCssProps) (declaredProps hoverRule) = true
      /\ map group1 (matchAll cssPropsRegex (renderSheet hoverRule)) = ["a"]
      /\ checkCssProps "components/x.html" (renderSheet hoverRule)
         = Err (Error (unsupportedPropMessage "components/x.html" "a"))).
Proof.
  split.
  - repeat split; try (vm_compute; reflexivity). simpl. auto.
  - repeat split; vm_compute; reflexivity.
Qed.

(** In a sheet of one rule the check does find the property. *)
Lemma single_rule_is_checked :
  checkCssProps "components/x.html" ".b{transition:none}"
  = Err (Error (unsupportedPropMessage "components/x.html" "transition")).
Proof. vm_compute. reflexivity. Qed.

(** When the check does throw, the message names the file and the property. *)
Lemma checkProps_Err (filename : string) (ms : list rmatch) (e : thrown) :
  checkProps filename ms = Err e ->
  exists m, In m ms
    /\ includes allowedCssProps (group1 m) = false
    /\ e = Error (unsupportedPropMessage filename (group1 m)).
Proof.
  induction ms as [|m ms IH]; cbn [checkProps]; [discriminate|].
  destruct (includes allowedCssProps (group1 m)) eqn:Hinc.
  - intros H. destruct (IH H) as (m' & Hin & Hm'). exists m'. split; [now right | exact Hm'].
  - intros H. exists m. split; [now left|]. split; [exact Hinc | congruence].
Qed.

(** ** The errors of the CSS minification *)

(** C2 fails on the code: line 88 throws only when there are at least two
    errors.  A minification that reports exactly one error throws nothing,
    and the component is returned and built. *)
Theorem single_css_error_is_not_thrown :
  (forall (styles : string) (e : string),
     throwCssErrors {| styles := styles; errors := [e] |} = Ok tt)
  /\ (forall (styles : string) (e1 e2 : string) (es : list string),
        throwCssErrors {| styles := styles; errors := e1 :: e2 :: es |} = Err (StrVal e1))
  /\ length (errors (CSS_minify Sample.env "@import 'missing.css';")) = 1
  /\ processComponent Sample.env Sample.gallery "components/import.html"
     = Ok [("name", JStr "Import"); ("style", JStr ""); ("script", JStr "");
           ("html", JStr "<p>x</p>")].
Proof.
  repeat split; reflexivity.
Qed.

(** ** The class rewrite *)

(** C10 fails on the code: the two groups of the regular expression are
    greedy and not confined to the attribute, so on a line the match runs
    from the first class attribute to the last double quote and only the
    last [transition] before it is replaced.  The first of two class
    attributes is left as it is, and text that is in no class attribute is
    rewritten. *)
Theorem class_rewrite_is_greedy :
  transformHtml twoTransitions
  = "<div class=" ++ dq ++ "transition" ++ dq ++ "></div><div class=" ++ dq
    ++ "thumbnail" ++ dq ++ "></div>"
  /\ transformHtml transitionInText
     = "<p class=" ++ dq ++ "a" ++ dq ++ ">thumbnail</p><p id=" ++ dq ++ "b" ++ dq ++ "></p>".
Proof. split; vm_compute; reflexivity. Qed.

(** On a single class attribute alone on its line the rewrite does what the
    comment of line 94 says. *)
Lemma class_rewrite_single :
  transformHtml ("<p class=" ++ dq ++ "a transition b" ++ dq ++ ">x</p>")
  = "<p class=" ++ dq ++ "a thumbnail b" ++ dq ++ ">x</p>".
Proof. vm_compute. reflexivity. Qed.

(** ** The splice into the template *)

Lemma take_str_app (a b : string) : take_str (String.length a) (a ++ b) = a.
Proof. induction a as [|x a IH]; [now destruct b | rewrite append_cons; simpl; now rewrite IH]. Qed.

Lemma drop_str_app (a b : string) : drop_str (String.length a) (a ++ b) = b.
Proof. induction a as [|x a IH]; [now destruct b | rewrite append_cons; simpl; exact IH]. Qed.

Lemma drop_str_add (n m : nat) (s : string) :
  drop_str (n + m) s = drop_str m (drop_str n s).
Proof.
  revert s. induction n as [|n IH]; intros s.
  - simpl. now destruct m, s.
  - destruct s as [|c s]; simpl; [now destruct m | apply IH].
Qed.

(** A replacement text without a dollar sign stands for itself. *)
Lemma getSubstitution_plain (matched_ before after template : string) :
  char_in "$" template = false ->
  getSubstitution matched_ before after template = template.
Proof.
  induction template as [|c t IH]; [reflexivity|].
  cbn [char_in getSubstitution]. intros H.
  apply orb_false_elim in H as [Hc Ht].
  rewrite Ascii.eqb_sym, Hc, (IH Ht). reflexivity.
Qed.

(** When the serialised components hold no dollar sign, the splice puts
    them where the first placeholder is. *)
Lemma fullJsStr_plain (before after serialized : string) :
  indexOf placeholder (before ++ placeholder ++ after) = Some (String.length before) ->
  char_in "$" serialized = false ->
  fullJsStr (before ++ placeholder ++ after) serialized = before ++ serialized ++ after.
Proof.
  intros Hidx Hplain. unfold fullJsStr, replace. rewrite Hidx.
  rewrite take_str_app, drop_str_add, drop_str_app, drop_str_app.
  now rewrite getSubstitution_plain.
Qed.

(** C6 fails on the code: the serialised components are given to [replace]
    as the replacement text, in which a dollar sign before [$], [&], a
    backquote or a quote is a pattern.  The markup [$&nbsp;5] of a component
    comes out with the placeholder in the place of [$&]. *)
Theorem splice_expands_dollar_patterns :
  let template := "var components={/*${CANVAS_COMPONENTS}*/};" in
  let serialized := dq ++ "price" ++ dq ++ ": " ++ stringify (JObj priceRecord) in
  processRoot Sample.env "components/price.html" Sample.priceRoot = Ok priceRecord
  /\ serializedComponents Sample.env [priceRecord] = Ok serialized
  /\ assemble Sample.env 0 Sample.priceProject = Ok (fullJsStr template serialized)
  /\ fullJsStr template serialized
     = "var components={" ++ dq ++ "price" ++ dq ++ ": "
       ++ stringify (JObj [("name", JStr "Price"); ("style", JStr ""); ("script", JStr "");
                           ("html", JStr "<p>/*${CANVAS_COMPONENTS}*/nbsp;5</p>")])
       ++ "};"
  /\ fullJsStr template serialized <> "var components={" ++ serialized ++ "};".
Proof.
  repeat split; try (vm_compute; reflexivity). vm_compute. discriminate.
Qed.

(** * Further properties *)

(** ** The matcher against the shape of a match *)

Lemma length_append (a b : string) :
  String.length (a ++ b) = String.length a + String.length b.
Proof. induction a as [|x a IH]; [reflexivity | rewrite append_cons; simpl; now rewrite IH]. Qed.

Lemma take_consumed (w s' : string) :
  take_str (String.length (w ++ s') - String.length s') (w ++ s') = w.
Proof.
  rewrite length_append.
  replace (String.length w + String.length s' - String.length s') with (String.length w) by lia.
  apply take_str_app.
Qed.

Lemma strip_prefix_Some (p s s' : string) : strip_prefix p s = Some s' -> s = p ++ s'.
Proof.
  revert s. induction p as [|a p IH]; intros s H.
  - simpl in H. now injection H as ->.
  - destruct s as [|b s]; [discriminate|]. cbn [strip_prefix] in H.
    destruct (Ascii.eqb_spec a b) as [->|]; [|discriminate].
    rewrite append_cons. f_equal. now apply IH.
Qed.

Lemma strip_prefix_app (p s : string) : strip_prefix p (p ++ s) = Some s.
Proof.
  induction p as [|a p IH]; [reflexivity|].
  rewrite append_cons. cbn [strip_prefix]. now rewrite Ascii.eqb_refl.
Qed.

Section MatcherSound.
Context {R : Type}.

Lemma star_sound (p : charclass) (s : string) (k : string -> option R) (res : R) :
  star p s k = Some res -> exists w s', s = w ++ s' /\ k s' = Some res.
Proof.
  induction s as [|c s IH]; cbn [star]; intros H.
  - exists "", "". auto.
  - destruct (p (String c s)).
    + destruct (star p s k) as [r|] eqn:Hs.
      * injection H as <-. destruct (IH eq_refl) as (w & s' & -> & Hk).
        exists (String c w), s'. auto.
      * exists "", (String c s). auto.
    + exists "", (String c s). auto.
Qed.

(** Whatever the matcher accepts has the shape of the expression: the input
    is the consumed text and the rest, and the continuation has got the
    rest and the captured groups. *)
Lemma run_sound (r : regex) :
  forall (s : string) (caps : list string) (k : string -> list string -> option R) (res : R),
    run r s caps k = Some res ->
    exists w g s',
      s = w ++ s' /\ Consumes r w g /\ k s' (caps ++ g)%list = Some res.
Proof.
  induction r as [l|p|p|c|r IH|r1 IH1 r2 IH2]; intros s caps k res H; cbn [run] in H.
  - destruct (strip_prefix l s) as [s'|] eqn:Hp; [|discriminate].
    apply strip_prefix_Some in Hp. exists l, [], s'.
    rewrite app_nil_r. repeat split; auto. constructor.
  - apply star_sound in H as (w & s' & -> & Hk).
    exists w, [], s'. rewrite app_nil_r. repeat split; auto. constructor.
  - destruct s as [|c s]; [discriminate|]. destruct (p (String c s)); [|discriminate].
    apply star_sound in H as (w & s' & -> & Hk).
    exists (String c w), [], s'. rewrite app_nil_r. repeat split; auto. constructor.
  - destruct s as [|d s].
    + exists "", [], "". rewrite app_nil_r. repeat split; auto. constructor.
    + destruct (Ascii.eqb_spec c d) as [<-|].
      * destruct (k s caps) as [r|] eqn:Hk.
        -- injection H as <-. exists (String c ""), [], s.
           rewrite app_nil_r. repeat split; auto. constructor.
        -- exists "", [], (String c s). rewrite app_nil_r. repeat split; auto. constructor.
      * exists "", [], (String d s). rewrite app_nil_r. repeat split; auto. constructor.
  - apply IH in H as (w & g & s' & -> & Hc & Hk).
    rewrite take_consumed in Hk.
    exists w, (g ++ [w])%list, s'. rewrite app_assoc. repeat split; auto. now constructor.
  - apply IH1 in H as (w1 & g1 & s1 & -> & Hc1 & H).
    apply IH2 in H as (w2 & g2 & s2 & -> & Hc2 & H).
    exists (w1 ++ w2), (g1 ++ g2)%list, s2.
    rewrite append_assoc, app_assoc. repeat split; auto. now constructor.
Qed.
End MatcherSound.

(** A match at the head of the input is a prefix of it and has the shape of
    the expression. *)
Lemma match_here_sound (r : regex) (s : string) (m : rmatch) :
  match_here r s = Some m ->
  exists rest, s = matched m ++ rest /\ Consumes r (matched m) (groups m).
Proof.
  unfold match_here. intros H.
  apply run_sound in H as (w & g & s' & -> & Hc & H).
  injection H as <-. cbn [matched groups]. rewrite take_consumed.
  exists s'. auto.
Qed.

(** Every match that [matchAll] yields is a match at the head of a suffix
    of the text. *)
Lemma matches_from_In (r : regex) (m : rmatch) (s : string) :
  forall skip, In m (matches_from r skip s) ->
    exists before rest, s = before ++ rest /\ match_here r rest = Some m.
Proof.
  induction s as [|c s IH]; intros skip Hin; cbn [matches_from] in Hin.
  - destruct skip; [|destruct Hin].
    destruct (match_here r "") as [m'|] eqn:Hm; [|destruct Hin].
    destruct Hin as [<-|[]]. exists "", "". auto.
  - destruct skip as [|n].
    + destruct (match_here r (String c s)) as [m'|] eqn:Hm.
      * destruct Hin as [<-|Hin]; [exists "", (String c s); auto|].
        apply IH in Hin as (before & rest & -> & Hr).
        exists (String c before), rest. auto.
      * apply IH in Hin as (before & rest & -> & Hr).
        exists (String c before), rest. auto.
    + apply IH in Hin as (before & rest & -> & Hr).
      exists (String c before), rest. auto.
Qed.

(** The shapes of the matches of the two expressions of the script. *)
Lemma cssPropsRegex_shape (w : string) (g : list string) :
  Consumes cssPropsRegex w g ->
  exists name value, w = name ++ ":" ++ value /\ g = [name].
Proof.
  unfold cssPropsRegex. intros H.
  inversion H as [| | | | | |? ? wn w1 gn g1 Hn H1]; subst; clear H.
  inversion Hn as [| | | | |? ? ? Hn'|]; subst; clear Hn.
  inversion Hn'; subst; clear Hn'.
  inversion H1 as [| | | | | |? ? wc w2 gc g2 Hc H2]; subst; clear H1.
  inversion Hc; subst; clear Hc.
  inversion H2 as [| | | | | |? ? wv w3 gv g3 Hv H3]; subst; clear H2.
  inversion Hv; subst; clear Hv.
  inversion H3; subst; clear H3; eexists _, _; split; reflexivity.
Qed.

Lemma transitionRegex_shape (w : string) (g : list string) :
  Consumes transitionRegex w g ->
  exists cg1 cg2,
    w = ("class=" ++ dq) ++ cg1 ++ "transition" ++ cg2 ++ dq /\ g = [cg1; cg2].
Proof.
  unfold transitionRegex. intros H.
  inversion H as [| | | | | |? ? w0 w1 g0 g1 H0 H1]; subst; clear H.
  inversion H0; subst; clear H0.
  inversion H1 as [| | | | | |? ? wa w2 ga g2 Ha H2]; subst; clear H1.
  inversion Ha as [| | | | |? ? ? Ha'|]; subst; clear Ha.
  inversion Ha'; subst; clear Ha'.
  inversion H2 as [| | | | | |? ? wt w3 gt g3 Ht H3]; subst; clear H2.
  inversion Ht; subst; clear Ht.
  inversion H3 as [| | | | | |? ? wb w4 gb g4 Hb H4]; subst; clear H3.
  inversion Hb as [| | | | |? ? ? Hb'|]; subst; clear Hb.
  inversion Hb'; subst; clear Hb'.
  inversion H4; subst; clear H4.
  eexists _, _; split; reflexivity.
Qed.

(** ** The class rewrite changes nothing but the word *)

Lemma replace_from_skip (r : regex) (f : rmatch -> string) (w rest : string) :
  replace_from r f (String.length w) (w ++ rest) = replace_from r f 0 rest.
Proof.
  induction w as [|c w IH]; [now destruct rest|].
  rewrite append_cons. cbn [String.length replace_from]. exact IH.
Qed.

(** One step of [replaceAll] at a match that is not empty. *)
Lemma replace_from_match (r : regex) (f : rmatch -> string) (m : rmatch) (rest : string) :
  matched m <> "" ->
  match_here r (matched m ++ rest) = Some m ->
  replace_from r f 0 (matched m ++ rest) = f m ++ replace_from r f 0 rest.
Proof.
  intros Hne Hm. destruct (matched m) as [|c w] eqn:Hw; [congruence|].
  rewrite append_cons in *. cbn [replace_from]. rewrite Hm, Hw.
  cbn [String.length]. now rewrite replace_from_skip.
Qed.

Lemma Renamed_refl (s : string) : Renamed s s.
Proof. induction s; now constructor. Qed.

Lemma Renamed_app (a s t : string) : Renamed s t -> Renamed (a ++ s) (a ++ t).
Proof.
  intros H. induction a as [|c a IH]; [exact H|].
  rewrite !append_cons. now constructor.
Qed.

Lemma transformHtml_step (s : string) (m : rmatch) :
  match_here transitionRegex s = Some m ->
  exists cg1 cg2 rest,
    s = ("class=" ++ dq) ++ cg1 ++ "transition" ++ cg2 ++ dq ++ rest
    /\ transformHtml s
       = ("class=" ++ dq) ++ cg1 ++ "thumbnail" ++ cg2 ++ dq ++ transformHtml rest.
Proof.
  intros Hm. pose proof Hm as Hs.
  apply match_here_sound in Hs as (rest & Hs & Hc).
  apply transitionRegex_shape in Hc as (cg1 & cg2 & Hw & Hg).
  exists cg1, cg2, rest. split.
  - rewrite Hs, Hw. now rewrite !append_assoc.
  - unfold transformHtml, replaceAll. rewrite Hs in Hm |- *.
    rewrite (replace_from_match _ _ m rest); [|rewrite Hw; discriminate | exact Hm].
    unfold thumbnailReplacer. rewrite Hg. cbn [nth].
    now rewrite !append_assoc.
Qed.

Lemma transformHtml_nil : transformHtml "" = "".
Proof. reflexivity. Qed.

Lemma transformHtml_no_match (c : ascii) (s : string) :
  match_here transitionRegex (String c s) = None ->
  transformHtml (String c s) = String c (transformHtml s).
Proof.
  intros H. unfold transformHtml, replaceAll. cbn [replace_from]. now rewrite H.
Qed.

Lemma transformHtml_Renamed (html : string) : Renamed html (transformHtml html).
Proof.
  remember (String.length html) as n eqn:Hn.
  revert html Hn. induction n as [n IH] using lt_wf_ind. intros html Hn.
  destruct html as [|c s]; [rewrite transformHtml_nil; constructor|].
  destruct (match_here transitionRegex (String c s)) as [m|] eqn:Hm.
  - apply transformHtml_step in Hm as (cg1 & cg2 & rest & Hs & Ht).
    rewrite Ht, Hs.
    apply Renamed_app, Renamed_app, renamed_word, Renamed_app, Renamed_app.
    apply (IH (String.length rest)); [|reflexivity].
    rewrite Hn, Hs, !length_append. simpl. lia.
  - rewrite (transformHtml_no_match _ _ Hm). constructor.
    apply (IH (String.length s)); [|reflexivity]. rewrite Hn. simpl. lia.
Qed.

Lemma indexOf_prefix (pat s : string) : indexOf pat (pat ++ s) = Some 0.
Proof.
  destruct (pat ++ s) as [|c x] eqn:Hx; cbn [indexOf]; rewrite <- Hx, strip_prefix_app;
    reflexivity.
Qed.

Lemma indexOf_None_cons (pat : string) (c : ascii) (s : string) :
  indexOf pat (String c s) = None ->
  strip_prefix pat (String c s) = None /\ indexOf pat s = None.
Proof.
  cbn [indexOf]. destruct (strip_prefix pat (String c s)); [discriminate|].
  destruct (indexOf pat s); [discriminate | auto].
Qed.

Lemma Renamed_length (s t : string) : Renamed s t -> String.length t <= String.length s.
Proof.
  induction 1 as [|c s t _ IH|s t _ IH]; [lia | simpl; lia |].
  rewrite !length_append. simpl. lia.
Qed.

Lemma Renamed_no_word (s t : string) :
  Renamed s t -> indexOf "transition" s = None -> t = s.
Proof.
  induction 1 as [|c s t _ IH|s t _ _]; intros Hidx.
  - reflexivity.
  - apply indexOf_None_cons in Hidx as [_ Hidx]. now rewrite IH.
  - rewrite indexOf_prefix in Hidx. discriminate.
Qed.

Lemma match_here_transition_prefix (s : string) (m : rmatch) :
  match_here transitionRegex s = Some m ->
  exists rest, strip_prefix ("class=" ++ dq) s = Some rest.
Proof.
  intros H. apply transformHtml_step in H as (cg1 & cg2 & rest & -> & _).
  eexists. apply strip_prefix_app.
Qed.

Lemma transformHtml_no_class (html : string) :
  indexOf ("class=" ++ dq) html = None -> transformHtml html = html.
Proof.
  induction html as [|c s IH]; intros Hidx; [reflexivity|].
  apply indexOf_None_cons in Hidx as [Hp Hs].
  destruct (match_here transitionRegex (String c s)) as [m|] eqn:Hm.
  - apply match_here_transition_prefix in Hm as (rest & Hrest). congruence.
  - rewrite (transformHtml_no_match _ _ Hm). now rewrite IH.
Qed.

(** X1.  The class rewrite of lines 94-98 gives the markup with some
    occurrences of the word [transition] replaced by [thumbnail]: it adds,
    drops and changes nothing else. *)
Theorem class_rewrite_only_renames (html : string) : Renamed html (transformHtml html).
Proof. apply transformHtml_Renamed. Qed.

(** X2.  Markup that has no class attribute in double quotes, or that does
    not have the word [transition], goes through the rewrite unchanged. *)
Theorem class_rewrite_identity (html : string) :
  indexOf ("class=" ++ dq) html = None \/ indexOf "transition" html = None ->
  transformHtml html = html.
Proof.
  intros [H|H].
  - now apply transformHtml_no_class.
  - exact (Renamed_no_word _ _ (transformHtml_Renamed html) H).
Qed.

Lemma class_rewrite_identity_witness :
  (indexOf ("class=" ++ dq) "<p id=x>in transition</p>" = None
   \/ indexOf "transition" "<p id=x>in transition</p>" = None)
  /\ transformHtml "<p id=x>in transition</p>" = "<p id=x>in transition</p>"
  /\ (indexOf ("class=" ++ dq) ("<p class=" ++ dq ++ "a" ++ dq ++ ">x</p>") = None
      \/ indexOf "transition" ("<p class=" ++ dq ++ "a" ++ dq ++ ">x</p>") = None)
  /\ transformHtml ("<p class=" ++ dq ++ "a" ++ dq ++ ">x</p>")
     = "<p class=" ++ dq ++ "a" ++ dq ++ ">x</p>".
Proof.
  assert (H1 : indexOf ("class=" ++ dq) "<p id=x>in transition</p>" = None
               \/ indexOf "transition" "<p id=x>in transition</p>" = None)
    by (left; vm_compute; reflexivity).
  assert (H2 : indexOf ("class=" ++ dq) ("<p class=" ++ dq ++ "a" ++ dq ++ ">x</p>") = None
               \/ indexOf "transition" ("<p class=" ++ dq ++ "a" ++ dq ++ ">x</p>") = None)
    by (right; vm_compute; reflexivity).
  split; [exact H1|]. split; [exact (class_rewrite_identity _ H1)|].
  split; [exact H2 | exact (class_rewrite_identity _ H2)].
Defined.

(** ** What the allow-list check reports *)

Lemma matchAll_In (r : regex) (m : rmatch) (s : string) :
  In m (matchAll r s) ->
  exists before rest, s = before ++ matched m ++ rest /\ Consumes r (matched m) (groups m).
Proof.
  intros H. apply matches_from_In in H as (before & suffix & -> & Hm).
  apply match_here_sound in Hm as (rest & -> & Hc). eauto.
Qed.

Lemma checkProps_nil (filename : string) : checkProps filename [] = Ok tt.
Proof. reflexivity. Qed.

(** X3.  When the allow-list check throws, the property that the message
    names is text of the style sheet that stands before a colon, and it is
    not in the allow-list; the message names the file being processed. *)
Theorem unsupported_property_is_in_the_sheet (filename styles : string) (e : thrown) :
  checkCssProps filename styles = Err e ->
  exists before propName rest,
    styles = before ++ propName ++ ":" ++ rest
    /\ includes allowedCssProps propName = false
    /\ e = Error (unsupportedPropMessage filename propName).
Proof.
  unfold checkCssProps. intros H.
  apply checkProps_Err in H as (m & Hin & Hinc & ->).
  apply matchAll_In in Hin as (before & rest & -> & Hc).
  apply cssPropsRegex_shape in Hc as (name & value & Hw & Hg).
  unfold group1 in *. rewrite Hg in *. cbn [hd] in *.
  exists before, name, (value ++ rest). rewrite Hw.
  repeat split; auto. now rewrite !append_assoc.
Qed.

Lemma unsupported_property_is_in_the_sheet_witness :
  checkCssProps "components/x.html" ".b{transition:none}"
  = Err (Error (unsupportedPropMessage "components/x.html" "transition"))
  /\ exists before propName rest,
       ".b{transition:none}" = before ++ propName ++ ":" ++ rest
       /\ includes allowedCssProps propName = false
       /\ Error (unsupportedPropMessage "components/x.html" "transition")
          = Error (unsupportedPropMessage "components/x.html" propName).
Proof.
  assert (H : checkCssProps "components/x.html" ".b{transition:none}"
              = Err (Error (unsupportedPropMessage "components/x.html" "transition")))
    by (vm_compute; reflexivity).
  split; [exact H|].
  exact (unsupported_property_is_in_the_sheet _ _ _ H).
Defined.

(** X4.  A style sheet without a colon passes the allow-list check; so
    does, in particular, the empty text of a missing style element. *)
Theorem sheet_without_colon_passes (filename styles : string) :
  char_in ":" styles = false -> checkCssProps filename styles = Ok tt.
Proof.
  intros Hno. unfold checkCssProps.
  destruct (matchAll cssPropsRegex styles) as [|m ms] eqn:Hms; [reflexivity|].
  assert (Hin : In m (matchAll cssPropsRegex styles)) by (rewrite Hms; now left).
  apply matchAll_In in Hin as (before & rest & -> & Hc).
  apply cssPropsRegex_shape in Hc as (name & value & Hw & _).
  rewrite Hw, 3 char_in_app in Hno.
  change (char_in ":" (":" ++ value)) with true in Hno.
  destruct (char_in ":" before), (char_in ":" name), (char_in ":" rest); discriminate.
Qed.

Lemma sheet_without_colon_passes_witness :
  char_in ":" "" = false /\ checkCssProps "components/box.html" "" = Ok tt.
Proof.
  split; [reflexivity|].
  exact (sheet_without_colon_passes "components/box.html" "" eq_refl).
Defined.

(** ** [Promise.all] and the outcome of the build *)

Lemma rejections_In {A} (rs : list (result A)) (e : thrown) :
  In e (rejections rs) <-> In (Err e) rs.
Proof.
  induction rs as [|[a|e'] rs IH]; simpl.
  - tauto.
  - rewrite IH. split; [auto | intros [H|H]; [discriminate | exact H]].
  - rewrite IH. split; intros [H|H]; auto; [left; congruence | injection H; auto].
Qed.

Lemma Promise_all_Err {A} (sched : nat) (rs : list (result A)) (e : thrown) :
  Promise_all sched rs = Err e -> In (Err e) rs.
Proof.
  unfold Promise_all. destruct (rejections rs) as [|e0 es] eqn:Hr; [discriminate|].
  assert (Hn : In (nth (sched mod S (length es)) (e0 :: es) e0) (e0 :: es)).
  { apply nth_In. cbn [length]. apply Nat.mod_upper_bound. discriminate. }
  intros H. apply rejections_In. rewrite Hr. congruence.
Qed.

Lemma Promise_all_rejected {A} (sched : nat) (rs : list (result A)) (e : thrown) :
  In (Err e) rs -> exists e', Promise_all sched rs = Err e'.
Proof.
  intros H. apply rejections_In in H. unfold Promise_all.
  destruct (rejections rs); [destruct H | eauto].
Qed.

Section Outcome.
Variable E : Env.

(** How the assembly goes when the files are found and the template is
    read. *)
Lemma assemble_found (sched : nat) (fs : FS) (found : list string) (template : string) :
  glob E "components/*.html" fs = Ok found ->
  readFile fs "canvascomponents.js" = Ok template ->
  assemble E sched fs
  = match Promise_all sched (map (processComponent E fs) found) with
    | Ok components =>
        match serializedComponents E components with
        | Ok serialized => Ok (fullJsStr template serialized)
        | Err e => Err e
        end
    | Err e => Err (Error ("Error creating components: " ++ toString e))
    end.
Proof.
  intros Hg Hr. unfold assemble. rewrite Hg, Hr. cbn [mbind result_bind].
  destruct (Promise_all sched (map (processComponent E fs) found)); [|reflexivity].
  cbn [mbind result_bind]. destruct (serializedComponents E a); reflexivity.
Qed.

Lemma build_assemble_Err (sched : nat) (fs : FS) (e : thrown) :
  assemble E sched fs = Err e -> build E sched fs = (fs, Err e).
Proof. intros H. unfold build. now rewrite H. Qed.

(** Every error of [lowerName] is a [TypeError]. *)
Lemma lowerName_TypeError (item : obj) :
  (forall name, obj_get "name" item <> Some (JStr name)) ->
  exists msg, serializeItem E item = Err (TypeError msg).
Proof.
  intros H. unfold serializeItem, lowerName.
  destruct (obj_get "name" item) as [[| | |name| |]|]; try (eexists; reflexivity).
  now destruct (H name).
Qed.

Lemma serializeItem_Err (item : obj) (e : thrown) :
  serializeItem E item = Err e -> exists msg, e = TypeError msg.
Proof.
  unfold serializeItem, lowerName.
  destruct (obj_get "name" item) as [[| | |name| |]|]; cbn [mbind result_bind];
    intros H; try discriminate; injection H as <-; eexists; reflexivity.
Qed.

Lemma serializedComponents_TypeError (components : list obj) :
  Exists (fun item => forall name, obj_get "name" item <> Some (JStr name)) components ->
  exists msg, serializedComponents E components = Err (TypeError msg).
Proof.
  intros H. unfold serializedComponents.
  assert (Hm : exists msg, map_throwing (serializeItem E) components = Err (TypeError msg)).
  { induction H as [item rest Hitem|item rest _ IH].
    - destruct (lowerName_TypeError item Hitem) as (msg & Hmsg).
      exists msg. cbn [map_throwing]. now rewrite Hmsg.
    - cbn [map_throwing]. destruct (serializeItem E item) as [entry|e] eqn:He.
      + destruct IH as (msg & ->). exists msg. reflexivity.
      + apply serializeItem_Err in He as (msg & ->). exists msg. reflexivity. }
  destruct Hm as (msg & ->). exists msg. reflexivity.
Qed.
End Outcome.

(** X5.  When the processing of a component file throws, the build throws
    an [Error] whose message is the text [Error creating components: ]
    followed by the error of one of the failing components, and it leaves
    the file system as it was: no directory is made, no file written. *)
Theorem failing_component_fails_the_build
    (E : Env) (sched : nat) (fs : FS) (found : list string) (template filename : string)
    (e0 : thrown) :
  glob E "components/*.html" fs = Ok found ->
  readFile fs "canvascomponents.js" = Ok template ->
  In filename found ->
  processComponent E fs filename = Err e0 ->
  exists failing e,
    In failing found
    /\ processComponent E fs failing = Err e
    /\ build E sched fs
       = (fs, Err (Error ("Error creating components: " ++ toString e))).
Proof.
  intros Hg Hr Hin Herr.
  assert (Hrej : In (Err e0) (map (processComponent E fs) found)).
  { rewrite <- Herr. now apply in_map. }
  destruct (Promise_all_rejected sched _ _ Hrej) as (e & He).
  pose proof (Promise_all_Err _ _ _ He) as Hine.
  apply in_map_iff in Hine as (failing & Hf & Hfin).
  exists failing, e. repeat split; auto.
  apply build_assemble_Err. rewrite (assemble_found E sched fs found template Hg Hr).
  now rewrite He.
Qed.

Lemma failing_component_fails_the_build_witness :
  let fs :=
    {| files := <["canvascomponents.js" := "var components={/*${CANVAS_COMPONENTS}*/};"]>
                  (<["components/box.html" := Sample.noMainFile]> ∅);
       dirs := ∅ |} in
  glob Sample.env "components/*.html" fs = Ok ["components/box.html"]
  /\ readFile fs "canvascomponents.js" = Ok "var components={/*${CANVAS_COMPONENTS}*/};"
  /\ processComponent Sample.env fs "components/box.html" = Err (nullAccess "innerHTML")
  /\ exists failing e,
       In failing ["components/box.html"]
       /\ processComponent Sample.env fs failing = Err e
       /\ build Sample.env 0 fs
          = (fs, Err (Error ("Error creating components: " ++ toString e))).
Proof.
  intros fs.
  assert (Hg : glob Sample.env "components/*.html" fs = Ok ["components/box.html"])
    by (vm_compute; reflexivity).
  assert (Hr : readFile fs "canvascomponents.js"
               = Ok "var components={/*${CANVAS_COMPONENTS}*/};")
    by (vm_compute; reflexivity).
  assert (He : processComponent Sample.env fs "components/box.html"
               = Err (nullAccess "innerHTML"))
    by (vm_compute; reflexivity).
  split; [exact Hg|]. split; [exact Hr|]. split; [exact He|].
  exact (failing_component_fails_the_build Sample.env 0 fs _ _ "components/box.html" _
           Hg Hr (or_introl eq_refl) He).
Defined.

(** X7.  When every component is processed but one of them has no string
    [name] in its record, the build throws a [TypeError] (not wrapped in the
    message of component errors) and leaves the file system as it was. *)
Theorem unnamed_component_fails_the_build
    (E : Env) (sched : nat) (fs : FS) (found : list string) (template : string)
    (components : list obj) :
  glob E "components/*.html" fs = Ok found ->
  readFile fs "canvascomponents.js" = Ok template ->
  Forall2 (fun filename item => processComponent E fs filename = Ok item) found components ->
  Exists (fun item => forall name, obj_get "name" item <> Some (JStr name)) components ->
  exists msg, build E sched fs = (fs, Err (TypeError msg)).
Proof.
  intros Hg Hr Hproc Hex.
  destruct (serializedComponents_TypeError E components Hex) as (msg & Hser).
  exists msg. apply build_assemble_Err.
  rewrite (assemble_found E sched fs found template Hg Hr).
  rewrite (Promise_all_fulfilled _ _ _ sched Hproc). now rewrite Hser.
Qed.

Lemma unnamed_component_fails_the_build_witness :
  let fs :=
    {| files := <["canvascomponents.js" := "var components={/*${CANVAS_COMPONENTS}*/};"]>
                  (<["components/box.html" := "<config>title: Box</config><main></main>"]> ∅);
       dirs := ∅ |} in
  let untitled := [("title", JStr "Box"); ("style", JStr ""); ("script", JStr "");
                   ("html", JStr "")] in
  let E := {| glob := glob Sample.env;
              HTML_parse := fun _ => [Sample.el "config" "title: Box"; Sample.el "main" ""];
              YAML_parse := YAML_parse Sample.env;
              CSS_minify := CSS_minify Sample.env;
              JS_minify := JS_minify Sample.env;
              HTMLMinifier_minify := HTMLMinifier_minify Sample.env;
              toLowerCase := toLowerCase Sample.env;
              projectDir := projectDir Sample.env |} in
  processComponent E fs "components/box.html" = Ok untitled
  /\ (forall name, obj_get "name" untitled <> Some (JStr name))
  /\ exists msg, build E 0 fs = (fs, Err (TypeError msg)).
Proof.
  intros fs untitled E.
  assert (Hp : processComponent E fs "components/box.html" = Ok untitled)
    by (vm_compute; reflexivity).
  assert (Hn : forall name, obj_get "name" untitled <> Some (JStr name))
    by (intros name; vm_compute; discriminate).
  split; [exact Hp|]. split; [exact Hn|].
  refine (unnamed_component_fails_the_build E 0 fs ["components/box.html"]
            "var components={/*${CANVAS_COMPONENTS}*/};" [untitled] _ _ _ _).
  - vm_compute; reflexivity.
  - vm_compute; reflexivity.
  - constructor; [exact Hp | constructor].
  - left. exact Hn.
Defined.


(** ** The bookmarklet text *)

Lemma all_chars_app (p : ascii -> bool) (a b : string) :
  all_chars p (a ++ b) = all_chars p a && all_chars p b.
Proof.
  induction a as [|c a IH]; [reflexivity|].
  rewrite append_cons. cbn [all_chars]. now rewrite IH, andb_assoc.
Qed.

Lemma encoded_char_safe (c : ascii) :
  all_chars uriSafe (if uriUnescaped c then String c "" else percentEncode c) = true.
Proof. destruct c as [[] [] [] [] [] [] [] []]; reflexivity. Qed.

Lemma encodeURI_safe (s : string) : all_chars uriSafe (encodeURI s) = true.
Proof.
  induction s as [|c s IH]; [reflexivity|].
  cbn [encodeURI]. now rewrite all_chars_app, encoded_char_safe, IH.
Qed.

Lemma percentDecode_char (c : ascii) (rest : string) :
  percentDecode ((if uriUnescaped c then String c "" else percentEncode c) ++ rest)
  = String c (percentDecode rest).
Proof. destruct c as [[] [] [] [] [] [] [] []]; reflexivity. Qed.

(** Decoding the escapes gives back the text that [encodeURI] was given. *)
Lemma percentDecode_encodeURI (s : string) : percentDecode (encodeURI s) = s.
Proof.
  induction s as [|c s IH]; [reflexivity|].
  cbn [encodeURI]. now rewrite percentDecode_char, IH.
Qed.

Lemma encodeURI_inj (a b : string) : encodeURI a = encodeURI b -> a = b.
Proof.
  intros H. rewrite <- (percentDecode_encodeURI a), <- (percentDecode_encodeURI b).
  now rewrite H.
Qed.

Lemma append_inj_r (a b c : string) : a ++ c = b ++ c -> a = b.
Proof.
  revert b. induction a as [|x a IH]; intros [|y b] H.
  - reflexivity.
  - apply (f_equal String.length) in H. rewrite !length_append in H.
    cbn [String.length] in H. lia.
  - apply (f_equal String.length) in H. rewrite !length_append in H.
    cbn [String.length] in H. lia.
  - rewrite !append_cons in H. injection H as -> H. f_equal. now apply IH.
Qed.

(** X9.  The bookmarklet is made of the characters that [encodeURI] leaves
    alone and of percent escapes only: it holds no space, quote, angle
    bracket, brace, control or non-ASCII character. *)
Theorem bookmarklet_is_uri_safe (js : string) :
  all_chars (fun c => uriUnescaped c || Ascii.eqb c "%") (createBookmarklet js) = true.
Proof. unfold createBookmarklet. apply encodeURI_safe. Qed.

(** X10.  The bookmarklet determines the script: no two different scripts
    have the same bookmarklet (the escaping loses nothing, the percent sign
    itself being escaped). *)
Theorem bookmarklet_keeps_the_script (js js' : string) :
  createBookmarklet js = createBookmarklet js' -> js = js'.
Proof.
  unfold createBookmarklet. intros H. apply encodeURI_inj in H.
  apply String.app_inj in H. now apply append_inj_r in H.
Qed.

Lemma bookmarklet_keeps_the_script_witness :
  createBookmarklet ("alert(" ++ "1)") = createBookmarklet "alert(1)"
  /\ "alert(" ++ "1)" = "alert(1)".
Proof.
  assert (H : createBookmarklet ("alert(" ++ "1)") = createBookmarklet "alert(1)")
    by reflexivity.
  split; [exact H | exact (bookmarklet_keeps_the_script _ _ H)].
Defined.

(** X11.  In the bookmarklet the scheme and the wrapper stand as they are
    but for the two braces, which are escaped; the script is escaped in
    between. *)
Theorem bookmarklet_wrapper_text (js : string) :
  createBookmarklet js = "javascript:!function()%7B" ++ encodeURI js ++ "%7D()".
Proof.
  unfold createBookmarklet.
  rewrite (encodeURI_app "javascript:!function(){"), encodeURI_app. reflexivity.
Qed.

(** ** The writes of the artifacts *)

(** X12.  The three writes of lines 53-63 are started together; in whichever
    of the six orders they land, the file system that results is the
    same. *)
Theorem artifact_writes_commute (E : Env) (code : string) (fs : FS) :
  let w1 := writeFile (bookmarkletPath E) (createBookmarklet code) in
  let w2 := writeFile (bookmarkletHtmlPath E) (bookmarkletHtml (createBookmarklet code)) in
  let w3 := writeFile (minJsPath E) code in
  writeArtifacts E code fs = w3 (w2 (w1 fs))
  /\ w3 (w1 (w2 fs)) = w3 (w2 (w1 fs))
  /\ w2 (w3 (w1 fs)) = w3 (w2 (w1 fs))
  /\ w2 (w1 (w3 fs)) = w3 (w2 (w1 fs))
  /\ w1 (w3 (w2 fs)) = w3 (w2 (w1 fs))
  /\ w1 (w2 (w3 fs)) = w3 (w2 (w1 fs)).
Proof.
  destruct (artifact_paths_distinct E) as (H12 & H13 & H23).
  intros w1 w2 w3. subst w1 w2 w3. unfold writeArtifacts, writeFile; cbn [files dirs].
  split; [reflexivity|].
  repeat split; f_equal; apply map_eq; intros p;
    (destruct (decide (p = bookmarkletPath E)) as [->|];
     [|destruct (decide (p = minJsPath E)) as [->|];
       [|destruct (decide (p = bookmarkletHtmlPath E)) as [->|]]]);
    repeat (rewrite lookup_insert_eq || rewrite lookup_insert_ne by congruence);
    reflexivity.
Qed.

(** ** The record of a component *)

Lemma obj_set_absent (k : string) (v : json) (o : obj) :
  obj_get k o = None -> obj_set k v o = (o ++ [(k, v)])%list.
Proof.
  induction o as [|[k' v'] o IH]; [reflexivity|].
  cbn [obj_get obj_set]. destruct (String.eqb k k'); [discriminate|].
  intros H. cbn [app]. now rewrite IH.
Qed.

Lemma obj_get_app_absent (k k' : string) (v : json) (o : obj) :
  k <> k' -> obj_get k o = None -> obj_get k (o ++ [(k', v)])%list = None.
Proof.
  intros Hne. induction o as [|[k0 v0] o IH]; cbn [obj_get app].
  - intros _. apply String.eqb_neq in Hne. now rewrite Hne.
  - destruct (String.eqb k k0); [discriminate | exact IH].
Qed.

Lemma keys_obj_set (k : string) (v : json) (o : obj) :
  keys (obj_set k v o)
  = match obj_get k o with Some _ => keys o | None => (keys o ++ [k])%list end.
Proof.
  unfold keys. induction o as [|[k' v'] o IH]; [reflexivity|].
  cbn [obj_get obj_set]. destruct (String.eqb_spec k k') as [->|Hne]; [reflexivity|].
  cbn [map fst]. rewrite IH. now destruct (obj_get k o).
Qed.

Lemma includes_keys (k : string) (o : obj) :
  includes (keys o) k = match obj_get k o with Some _ => true | None => false end.
Proof.
  unfold includes, keys. induction o as [|[k' v'] o IH]; [reflexivity|].
  cbn [map fst existsb obj_get]. destruct (String.eqb k k'); [reflexivity | exact IH].
Qed.

(** X13.  When the metadata has no property named [style], [script] or
    [html], the record is the metadata followed by these three, in this
    order; this is the order of the fields in the JSON text. *)
Theorem record_appends_sections (config : json) (style script main : string) :
  obj_get "style" (spread config) = None ->
  obj_get "script" (spread config) = None ->
  obj_get "html" (spread config) = None ->
  componentRecord config style script main
  = (spread config
     ++ [("style", JStr style); ("script", JStr script); ("html", JStr main)])%list.
Proof.
  intros Hs Hj Hh. unfold componentRecord.
  rewrite (obj_set_absent "style" _ _ Hs).
  rewrite (obj_set_absent "script"); [|now apply obj_get_app_absent].
  rewrite (obj_set_absent "html");
    [|apply obj_get_app_absent; [discriminate|]; now apply obj_get_app_absent].
  now rewrite <- !app_assoc.
Qed.

Lemma record_appends_sections_witness :
  obj_get "style" (spread (JObj [("name", JStr "Box")])) = None
  /\ obj_get "script" (spread (JObj [("name", JStr "Box")])) = None
  /\ obj_get "html" (spread (JObj [("name", JStr "Box")])) = None
  /\ componentRecord (JObj [("name", JStr "Box")]) "" "" "<p>box</p>"
     = (spread (JObj [("name", JStr "Box")])
        ++ [("style", JStr ""); ("script", JStr ""); ("html", JStr "<p>box</p>")])%list.
Proof.
  split; [reflexivity|]. split; [reflexivity|]. split; [reflexivity|].
  exact (record_appends_sections (JObj [("name", JStr "Box")]) "" "" "<p>box</p>"
           eq_refl eq_refl eq_refl).
Defined.

(** X14.  The keys of the record, in property order, are the keys of the
    metadata in their order, followed by those of [style], [script] and
    [html], in this order, that the metadata does not have: a metadata
    property with one of these names keeps its place (and takes the new
    value), the others are put last. *)
Theorem record_key_order (config : json) (style script main : string) :
  keys (componentRecord config style script main)
  = (keys (spread config)
     ++ List.filter (fun k => negb (includes (keys (spread config)) k))
          ["style"; "script"; "html"])%list.
Proof.
  unfold componentRecord. rewrite !keys_obj_set.
  rewrite !obj_get_set_ne by discriminate.
  cbn [List.filter]. rewrite !includes_keys.
  destruct (obj_get "style" (spread config)), (obj_get "script" (spread config)),
    (obj_get "html" (spread config)); cbn [negb]; rewrite <- ?app_assoc, ?app_nil_r;
    reflexivity.
Qed.

(** ** The assembled script *)

Section Assembled.
Variable E : Env.

Lemma assemble_Ok_inv (sched : nat) (fs : FS) (full : string) :
  assemble E sched fs = Ok full ->
  exists found template components serialized,
    glob E "components/*.html" fs = Ok found
    /\ readFile fs "canvascomponents.js" = Ok template
    /\ Promise_all sched (map (processComponent E fs) found) = Ok components
    /\ serializedComponents E components = Ok serialized
    /\ full = fullJsStr template serialized.
Proof.
  intros H. unfold assemble in H.
  apply bind_Ok in H as (found & Hg & H).
  apply bind_Ok in H as (template & Hr & H).
  apply bind_Ok in H as (components & Hp & H).
  apply bind_Ok in H as (serialized & Hs & H).
  exists found, template, components, serialized.
  destruct (Promise_all sched (map (processComponent E fs) found)); [|discriminate].
  repeat split; congruence.
Qed.

Lemma fullJsStr_no_placeholder (template serialized : string) :
  indexOf placeholder template = None -> fullJsStr template serialized = template.
Proof. intros H. unfold fullJsStr, replace. now rewrite H. Qed.
End Assembled.

(** X16.  When the template script has no placeholder, the assembled
    script is the template itself: the components are processed and
    serialised, and then left out without an error. *)
Theorem template_without_placeholder
    (E : Env) (sched : nat) (fs : FS) (template full : string) :
  readFile fs "canvascomponents.js" = Ok template ->
  indexOf placeholder template = None ->
  assemble E sched fs = Ok full ->
  full = template.
Proof.
  intros Hr Hidx Ha.
  apply assemble_Ok_inv in Ha as (found & template' & comps & ser & _ & Hr' & _ & _ & ->).
  rewrite Hr in Hr'. injection Hr' as <-. now apply fullJsStr_no_placeholder.
Qed.

Lemma template_without_placeholder_witness :
  let fs := {| files := <["canvascomponents.js" := "go();"]> Sample.components;
               dirs := ∅ |} in
  readFile fs "canvascomponents.js" = Ok "go();"
  /\ indexOf placeholder "go();" = None
  /\ assemble Sample.env 0 fs = Ok "go();"
  /\ "go();" = "go();".
Proof.
  intros fs.
  assert (Hr : readFile fs "canvascomponents.js" = Ok "go();") by (vm_compute; reflexivity).
  assert (Hi : indexOf placeholder "go();" = None) by (vm_compute; reflexivity).
  assert (Ha : assemble Sample.env 0 fs = Ok "go();") by (vm_compute; reflexivity).
  split; [exact Hr|]. split; [exact Hi|]. split; [exact Ha|].
  exact (template_without_placeholder Sample.env 0 fs _ _ Hr Hi Ha).
Defined.

(** X17.  When the serialised components hold no dollar sign, the splice
    puts them in the place of the first placeholder of the template and
    keeps the text before and after it, later placeholders included. *)
Theorem splice_without_dollar (before after serialized : string) :
  indexOf placeholder (before ++ placeholder ++ after) = Some (String.length before) ->
  char_in "$" serialized = false ->
  fullJsStr (before ++ placeholder ++ after) serialized = before ++ serialized ++ after.
Proof. apply fullJsStr_plain. Qed.

Lemma splice_without_dollar_witness :
  let after := "};more(" ++ placeholder ++ ")" in
  indexOf placeholder ("var components={" ++ placeholder ++ after)
  = Some (String.length "var components={")
  /\ char_in "$" "a: 1" = false
  /\ fullJsStr ("var components={" ++ placeholder ++ after) "a: 1"
     = "var components={" ++ "a: 1" ++ after.
Proof.
  intros after.
  assert (Hi : indexOf placeholder ("var components={" ++ placeholder ++ after)
               = Some (String.length "var components={")) by (vm_compute; reflexivity).
  split; [exact Hi|]. split; [reflexivity|].
  exact (splice_without_dollar "var components={" after "a: 1" Hi eq_refl).
Defined.

(** X18.  When no component file is found, nothing is thrown up to the
    splice and the assembled script is the template with its first
    placeholder taken out (replaced by the empty text). *)
Theorem no_component_files
    (E : Env) (sched : nat) (fs : FS) (before after : string) :
  glob E "components/*.html" fs = Ok [] ->
  readFile fs "canvascomponents.js" = Ok (before ++ placeholder ++ after) ->
  indexOf placeholder (before ++ placeholder ++ after) = Some (String.length before) ->
  assemble E sched fs = Ok (before ++ after).
Proof.
  intros Hg Hr Hidx. rewrite (assemble_found E sched fs [] _ Hg Hr).
  cbn [map]. unfold Promise_all. cbn [rejections fulfilled].
  unfold serializedComponents. cbn [map_throwing mbind result_bind mret result_ret].
  change (join "," []) with "".
  now rewrite (fullJsStr_plain before after "" Hidx eq_refl).
Qed.

Lemma no_component_files_witness :
  let fs := {| files := <["canvascomponents.js" := "var components={" ++ placeholder ++ "};"]> ∅;
               dirs := ∅ |} in
  glob Sample.env "components/*.html" fs = Ok []
  /\ readFile fs "canvascomponents.js" = Ok ("var components={" ++ placeholder ++ "};")
  /\ indexOf placeholder ("var components={" ++ placeholder ++ "};")
     = Some (String.length "var components={")
  /\ assemble Sample.env 0 fs = Ok ("var components={" ++ "};").
Proof.
  intros fs.
  assert (Hg : glob Sample.env "components/*.html" fs = Ok []) by (vm_compute; reflexivity).
  assert (Hr : readFile fs "canvascomponents.js"
               = Ok ("var components={" ++ placeholder ++ "};")) by (vm_compute; reflexivity).
  assert (Hi : indexOf placeholder ("var components={" ++ placeholder ++ "};")
               = Some (String.length "var components={")) by (vm_compute; reflexivity).
  split; [exact Hg|]. split; [exact Hr|]. split; [exact Hi|].
  exact (no_component_files Sample.env 0 fs "var components={" "};" Hg Hr Hi).
Defined.
